(** * MAHORAGA edge worker and Z.AI completion adapter: embedding and properties

    The development follows the two TypeScript units of the repository:

    - the worker entry point ([constantTimeCompare], [isAuthorized],
      [unauthorizedResponse], [getCorsHeaders] and the [fetch] router);
    - the Z.AI provider ([ZAIProvider]), which the repository carries in two
      revisions: one with [normalizeModel] and console diagnostics
      (module [ZAI]) and one without (module [ZAI2]).

    Strings.  A JavaScript string is a sequence of UTF-16 code units.  The
    model uses [string], read as the sequence of code units U+0000..U+00FF
    (Latin-1): [charCodeAt] is [N_of_ascii], and [toLowerCase], [trim] are the
    ECMAScript functions restricted to that range.

    URLs.  The router reads the pathname and the search of the request URL
    as the platform parsed them.  The URL it builds for the harness is
    evaluated by module [URL], which writes out the part of the platform's
    parser that references made of path code points go through and answers
    [Unmodelled] outside it.

    Effects.  The collaborators the worker only calls (the harness stub, the
    MCP mount, the asset binding, the clock) and the network [fetch] of the
    provider are function arguments.  Exceptions are the [Thrown] outcome of
    a small monad that also threads the console. *)

From Stdlib Require Import Bool Arith NArith ZArith QArith Lia List Ascii String.
From Stdlib Require Import DecimalString DecimalPos DecimalN.
Import ListNotations.
Set Warnings "-register-all".
Local Close Scope Q_scope.
Local Open Scope string_scope.
Local Open Scope bool_scope.

(* ===================================================================== *)
(** ** ECMAScript string primitives used by the sources *)
(* ===================================================================== *)

Module JS.

(** [s.startsWith(p)] *)
Definition startsWith (s p : string) : bool := String.prefix p s.

(** [s.slice(start)] for a non-negative [start] *)
Fixpoint slice (s : string) (start : nat) : string :=
  match start, s with
  | O, _ => s
  | S n, String _ t => slice t n
  | S _, EmptyString => EmptyString
  end.

(** [s.includes(x)] *)
Fixpoint includes (s x : string) : bool :=
  String.prefix x s ||
  match s with
  | EmptyString => false
  | String _ t => includes t x
  end.

(** [s.replace(pattern, replacement)] with a string pattern: only the first
    occurrence is replaced. *)
Fixpoint replace (s pattern replacement : string) {struct s} : string :=
  if String.prefix pattern s then replacement ++ slice s (String.length pattern)
  else match s with
       | EmptyString => EmptyString
       | String c t => String c (replace t pattern replacement)
       end.

(** [s.charCodeAt(i)]: [None] stands for NaN (index out of range). *)
Definition charCodeAt (s : string) (i : nat) : option Z :=
  option_map (fun c => Z.of_N (N_of_ascii c)) (String.get i s).

(** ToInt32 of the operand of a bitwise operator: NaN becomes 0; the code
    units themselves are below 2^16 and are left as they are. *)
Definition ToInt32 (x : option Z) : Z :=
  match x with Some z => z | None => 0%Z end.

(** Lower-casing of one Latin-1 code unit: A-Z and the letters U+00C0..U+00DE
    other than the multiplication sign U+00D7. *)
Definition lower_code (n : N) : N :=
  if ((65 <=? n) && (n <=? 90) || (192 <=? n) && (n <=? 222) && negb (n =? 215))%N
  then (n + 32)%N else n.

(** [s.toLowerCase()] *)
Fixpoint toLowerCase (s : string) : string :=
  match s with
  | EmptyString => EmptyString
  | String c t => String (ascii_of_N (lower_code (N_of_ascii c))) (toLowerCase t)
  end.

(** WhiteSpace and LineTerminator code units below U+0100:
    TAB, LF, VT, FF, CR, SP and NBSP. *)
Definition isWhiteSpace (c : ascii) : bool :=
  let n := N_of_ascii c in
  ((9 <=? n) && (n <=? 13) || (n =? 32) || (n =? 160))%N.

Fixpoint dropWhile (p : ascii -> bool) (s : string) : string :=
  match s with
  | EmptyString => EmptyString
  | String c t => if p c then dropWhile p t else s
  end.

Fixpoint dropWhileEnd (p : ascii -> bool) (s : string) : string :=
  match s with
  | EmptyString => EmptyString
  | String c t =>
      let t' := dropWhileEnd p t in
      if p c && (t' =? "") then EmptyString else String c t'
  end.

(** [s.trim()] *)
Definition trim (s : string) : string :=
  dropWhileEnd isWhiteSpace (dropWhile isWhiteSpace s).

(** [s.split(sep)] for a one-character separator: [n] separators give
    [n + 1] pieces, so the empty string gives one empty piece. *)
Fixpoint split (s : string) (sep : ascii) : list string :=
  match s with
  | EmptyString => [EmptyString]
  | String c t =>
      if Ascii.eqb c sep then EmptyString :: split t sep
      else match split t sep with
           | piece :: rest => String c piece :: rest
           | [] => [String c EmptyString]
           end
  end.

(** [arr.includes(x)] on an array of strings *)
Definition arrayIncludes (arr : list string) (x : string) : bool :=
  existsb (String.eqb x) arr.

(** [arr.join(sep)] *)
Fixpoint join (sep : string) (arr : list string) : string :=
  match arr with
  | [] => EmptyString
  | [x] => x
  | x :: rest => x ++ sep ++ join sep rest
  end.

(** Number::toString on a non-negative integer (template literals). *)
Definition Number_toString (n : N) : string :=
  NilZero.string_of_uint (N.to_uint n).

(** An object literal of string properties is the list of its own
    properties in insertion order.  Defining a key that is already there
    replaces its value and keeps its place. *)
Fixpoint defineProperty (obj : list (string * string)) (k v : string)
  : list (string * string) :=
  match obj with
  | [] => [(k, v)]
  | (k', v') :: r =>
      if k' =? k then (k', v) :: r else (k', v') :: defineProperty r k v
  end.

(** [{ ...obj, ...extra }] *)
Definition spread (obj extra : list (string * string)) : list (string * string) :=
  fold_left (fun o kv => defineProperty o (fst kv) (snd kv)) extra obj.

(** [x || d] on a string that may be [undefined] or [null]: the empty string
    is falsy as well. *)
Definition orElse (x : option string) (d : string) : string :=
  match x with
  | Some s => if s =? "" then d else s
  | None => d
  end.

End JS.

(* ===================================================================== *)
(** ** The Fetch [Headers] class *)
(* ===================================================================== *)

Module Headers.

(** A header list: names are matched byte-case-insensitively, and a name
    may occur several times.  Values are taken as the platform delivers
    them (already valid and normalised). *)
Definition t := list (string * string).

Definition lower_byte (c : ascii) : ascii :=
  let n := N_of_ascii c in
  if ((65 <=? n) && (n <=? 90))%N then ascii_of_N (n + 32) else c.

Fixpoint lower (s : string) : string :=
  match s with
  | EmptyString => EmptyString
  | String c r => String (lower_byte c) (lower r)
  end.

Definition named (name : string) (e : string * string) : bool :=
  lower (fst e) =? lower name.

Definition values (h : t) (name : string) : list string :=
  map snd (filter (named name) h).

(** [h.get(name)]: the values of that name joined by ", ", or [null]. *)
Definition get (h : t) (name : string) : option string :=
  match values h name with
  | [] => None
  | vs => Some (JS.join ", " vs)
  end.

(** [h.append(name, value)] *)
Definition append (h : t) (name value : string) : t :=
  (h ++ [(lower name, value)])%list.

(** [h.set(name, value)]: the first header of that name takes the value
    and the others are removed; without one the header is appended. *)
Fixpoint set (h : t) (name value : string) : t :=
  match h with
  | [] => [(lower name, value)]
  | e :: r =>
      if named name e then (fst e, value) :: filter (fun x => negb (named name x)) r
      else e :: set r name value
  end.

(** [new Headers(init)] from a record literal: one [append] per own
    property, in insertion order. *)
Definition of_record (init : list (string * string)) : t :=
  fold_left (fun h kv => append h (fst kv) (snd kv)) init [].

(** [new Headers(h)] from another header list: a copy. *)
Definition copy (h : t) : t := h.

End Headers.

(* ===================================================================== *)
(** ** [JSON.stringify] on the flat object literals of the worker *)
(* ===================================================================== *)

Module JSON.

Definition dquote : ascii := ascii_of_nat 34.
Definition backslash : ascii := ascii_of_nat 92.

Definition hex_digit (n : N) : ascii :=
  if (n <? 10)%N then ascii_of_N (48 + n) else ascii_of_N (87 + n).

(** QuoteJSONString on one code unit below U+0100. *)
Definition quote_char (c : ascii) : string :=
  let n := N_of_ascii c in
  if (n =? 34)%N then String backslash (String dquote EmptyString)
  else if (n =? 92)%N then String backslash (String backslash EmptyString)
  else if (n =? 8)%N then String backslash "b"
  else if (n =? 9)%N then String backslash "t"
  else if (n =? 10)%N then String backslash "n"
  else if (n =? 12)%N then String backslash "f"
  else if (n =? 13)%N then String backslash "r"
  else if (n <? 32)%N then
    String backslash ("u00" ++ String (hex_digit (n / 16)) (String (hex_digit (n mod 16)) EmptyString))
  else String c EmptyString.

Fixpoint quote_chars (s : string) : string :=
  match s with
  | EmptyString => EmptyString
  | String c t => quote_char c ++ quote_chars t
  end.

Definition quote (s : string) : string :=
  String dquote (quote_chars s ++ String dquote EmptyString).

(** The members of an object whose property values are strings or
    [undefined]: an [undefined] property is left out. *)
Fixpoint members (props : list (string * option string)) : list string :=
  match props with
  | [] => []
  | (k, Some v) :: r => (quote k ++ ":" ++ quote v) :: members r
  | (_, None) :: r => members r
  end.

(** [JSON.stringify(obj)] with no indentation. *)
Definition stringify (props : list (string * option string)) : string :=
  "{" ++ JS.join "," (members props) ++ "}".

End JSON.

(* ===================================================================== *)
(** ** The URL parser on references resolved against [http://harness] *)
(* ===================================================================== *)

Module URL.

(** What the platform makes of a URL operation: a value; [Invalid], where
    the constructor throws its TypeError; or [Unmodelled], for an input
    outside the part of the parser that is written out below. *)
Inductive result (A : Type) : Type :=
| Ok (a : A)
| Invalid
| Unmodelled.
Arguments Ok {A} a.
Arguments Invalid {A}.
Arguments Unmodelled {A}.

Definition andThen {A B : Type} (r : result A) (k : A -> result B) : result B :=
  match r with
  | Ok a => k a
  | Invalid => Invalid
  | Unmodelled => Unmodelled
  end.

(** A URL record of scheme [http] with a host, a list of path segments and
    a query that may be null; it has no credentials, port or fragment. *)
Record t := { host : string; path : list string; query : option string }.


Definition between (lo hi : N) (c : ascii) : bool :=
  let n := N_of_ascii c in ((lo <=? n) && (n <=? hi))%N.


Definition isDigit (c : ascii) : bool := between 48 57 c.
Definition isSlash (c : ascii) : bool := Ascii.eqb c "/".

















(** [url.pathname] *)
Fixpoint pathname (path : list string) : string :=
  match path with
  | [] => EmptyString
  | segment :: rest => "/" ++ segment ++ pathname rest
  end.




End URL.

(* ===================================================================== *)
(** ** The worker entry point *)
(* ===================================================================== *)

Module Worker.

(** [new URL(request.url)]: the two components the router reads. *)
Record URL := { pathname : string; search : string }.

Record Request := {
  method : string;
  url : URL;
  headers : Headers.t;
  body : option string
}.

(** [agentUrl] as the branch writes it: the arguments of
    [new URL(agentPath, base)] and the [search] then assigned to it.
    [agentHref] below evaluates them to [agentUrl.toString()], the URL of
    the request the stub receives; a stub, which sees that URL only, is a
    function of this record through [agentHref]. *)
Record AgentURL := { agentPath : string; base : string; agentSearch : string }.

(** [new Request(agentUrl.toString(), { method, headers, body })] *)
Record AgentRequest := {
  a_url : AgentURL;
  a_method : string;
  a_headers : Headers.t;
  a_body : option string
}.

Record Response := {
  status : N;
  statusText : string;
  r_headers : Headers.t;
  r_body : option string
}.

(** Modelled from the spec: the [Env] type of [./env.d], which is not among
    the sources; its fields here are the ones the worker reads.  A binding
    is the [fetch] of the collaborator behind it: [getHarnessStub(env)] for
    [HARNESS], the [MahoragaMcpAgent] mount for [MCP_AGENT], the asset
    binding for [ASSETS]. *)
Record Env := {
  MAHORAGA_API_TOKEN : option string;
  CORS_ALLOWED_ORIGINS : option string;
  ENVIRONMENT : option string;
  ASSETS : Request -> Response;
  HARNESS : AgentRequest -> Response;
  MCP_AGENT : Request -> Response
}.

(** One turn of the loop of [constantTimeCompare]:
    [mismatch |= a.charCodeAt(i) ^ b.charCodeAt(i)], whose right operand is
    [differenceAt]. *)
Definition differenceAt (a b : string) (i : nat) : Z :=
  Z.lxor (JS.ToInt32 (JS.charCodeAt a i)) (JS.ToInt32 (JS.charCodeAt b i)).

Definition mismatch_step (a b : string) (mismatch : Z) (i : nat) : Z :=
  Z.lor mismatch (differenceAt a b i).

(** [for (let i = 0; i < a.length; i++)]: the value of [mismatch] after the
    loop, which has no exit other than its bound. *)
Definition mismatch_loop (a b : string) : Z :=
  fold_left (mismatch_step a b) (seq 0 (String.length a)) 0%Z.

Definition constantTimeCompare (a b : string) : bool :=
  if negb (String.length a =? String.length b)%nat then false
  else (mismatch_loop a b =? 0)%Z.

Definition isAuthorized (request : Request) (env : Env) : bool :=
  match MAHORAGA_API_TOKEN env with
  | None => false
  | Some token =>
      if token =? "" then false
      else match Headers.get (headers request) "Authorization" with
           | None => false
           | Some authHeader =>
               if negb (JS.startsWith authHeader "Bearer ") then false
               else constantTimeCompare (JS.slice authHeader 7) token
           end
  end.

Definition unauthorized_message : string :=
  "Unauthorized. Requires: Authorization: Bearer <MAHORAGA_API_TOKEN>".

Definition unauthorizedResponse (corsHeaders : list (string * string)) : Response :=
  {| status := 401;
     statusText := "";
     r_headers :=
       Headers.of_record (JS.spread [("Content-Type", "application/json")] corsHeaders);
     r_body := Some (JSON.stringify [("error", Some unauthorized_message)]) |}.

(** The object literal returned for an allowed origin. *)
Definition allowHeaders (origin : string) : list (string * string) :=
  [ ("Access-Control-Allow-Origin", origin);
    ("Access-Control-Allow-Methods", "GET, POST, PUT, DELETE, OPTIONS");
    ("Access-Control-Allow-Headers", "Content-Type, Authorization");
    ("Access-Control-Max-Age", "86400") ].

Definition requestOrigin (request : Request) : string :=
  JS.orElse (Headers.get (headers request) "Origin") "".

Definition allowedOrigins (env : Env) : list string :=
  match CORS_ALLOWED_ORIGINS env with
  | Some list => map JS.trim (JS.split list ",")
  | None => []
  end.

Definition isLocalhost (origin : string) : bool :=
  JS.startsWith origin "http://localhost:" || JS.startsWith origin "http://127.0.0.1:".

Definition getCorsHeaders (request : Request) (env : Env) : list (string * string) :=
  let origin := requestOrigin request in
  let allowedOrigins := allowedOrigins env in
  if isLocalhost origin
     || JS.arrayIncludes allowedOrigins origin
     || JS.arrayIncludes allowedOrigins "*"
  then allowHeaders origin
  else [].

(** The condition of the [if] of [getCorsHeaders], named for the statements
    about it. *)
Definition allowed (request : Request) (env : Env) : bool :=
  isLocalhost (requestOrigin request)
  || JS.arrayIncludes (allowedOrigins env) (requestOrigin request)
  || JS.arrayIncludes (allowedOrigins env) "*".

(** [for (const [key, value] of Object.entries(corsHeaders)) newHeaders.set(key, value)] *)
Definition setAll (newHeaders : Headers.t) (corsHeaders : list (string * string)) : Headers.t :=
  fold_left (fun h kv => Headers.set h (fst kv) (snd kv)) corsHeaders newHeaders.

(** The header names an object literal sets, as [Headers] compares them. *)
Definition keys (corsHeaders : list (string * string)) : list string :=
  map (fun kv => Headers.lower (fst kv)) corsHeaders.

(** Is [e] a header of one of those names? *)
Definition overlaid (corsHeaders : list (string * string)) (e : string * string) : bool :=
  existsb (fun kv => Headers.named (fst kv) e) corsHeaders.

(** The request handed to the harness stub by the [/api] and [/agent]
    branches, which differ only in the prefix they remove.  Its URL is
    kept as the branch writes it; [agentHref] evaluates it. *)
Definition agentRequest (prefix : string) (request : Request) : AgentRequest :=
  let agentPath := JS.orElse (Some (JS.replace (pathname (url request)) prefix "")) "/status" in
  {| a_url := {| agentPath := agentPath; base := "http://harness";
                 agentSearch := search (url request) |};
     a_method := method request;
     a_headers := headers request;
     a_body := body request |}.

(** The body of the [/api] and [/agent] branches. *)
Definition proxy (prefix : string) (request : Request) (env : Env)
    (corsHeaders : list (string * string)) : Response :=
  let response := HARNESS env (agentRequest prefix request) in
  let newHeaders := setAll (Headers.copy (r_headers response)) corsHeaders in
  {| status := status response;
     statusText := statusText response;
     r_headers := newHeaders;
     r_body := r_body response |}.

(** [fetch(request, env, ctx)].  [now] is [new Date().toISOString()]. *)
Definition fetch (now : string) (request : Request) (env : Env) : Response :=
  let url := url request in
  let corsHeaders := getCorsHeaders request env in
  if method request =? "OPTIONS" then
    {| status := 204; statusText := ""; r_headers := Headers.of_record corsHeaders;
       r_body := None |}
  else if pathname url =? "/health" then
    {| status := 200; statusText := "";
       r_headers := Headers.of_record [("Content-Type", "application/json")];
       r_body := Some (JSON.stringify [("status", Some "ok"); ("timestamp", Some now);
                                       ("environment", ENVIRONMENT env)]) |}
  else if JS.startsWith (pathname url) "/api" then proxy "/api" request env corsHeaders
  else if JS.startsWith (pathname url) "/mcp" then
    if negb (isAuthorized request env) then unauthorizedResponse []
    else MCP_AGENT env request
  else if JS.startsWith (pathname url) "/agent" then proxy "/agent" request env corsHeaders
  else ASSETS env request.




End Worker.

(* ===================================================================== *)
(** ** Decoded JSON and the property accesses of the provider *)
(* ===================================================================== *)

Module Json.

(** What [response.json()] decodes to.  An object is its list of own
    properties (distinct keys, as [JSON.parse] leaves them). *)
Inductive value :=
| Null
| Bool (b : bool)
| Number (q : Q)
| Str (s : string)
| Array (items : list value)
| Object (props : list (string * value)).

(** A JavaScript value of this fragment: [None] is [undefined]. *)
Definition jsval := option value.

Fixpoint assoc (key : string) (props : list (string * value)) : jsval :=
  match props with
  | [] => None
  | (k, v) :: r => if k =? key then Some v else assoc key r
  end.

Definition nullish (v : jsval) : bool :=
  match v with
  | None | Some Null => true
  | _ => false
  end.

(** ToBoolean *)
Definition truthy (v : jsval) : bool :=
  match v with
  | None | Some Null => false
  | Some (Bool b) => b
  | Some (Number q) => negb (Qeq_bool q 0)
  | Some (Str s) => negb (s =? "")
  | Some (Array _) | Some (Object _) => true
  end.

(** [v ?? d] *)
Definition coalesce (v : jsval) (d : value) : value :=
  match v with
  | None | Some Null => d
  | Some x => x
  end.

End Json.

(* ===================================================================== *)
(** ** Exceptions and the console *)
(* ===================================================================== *)

Module Eff.

(** Modelled from the spec: [ErrorCode] and [createError] of [lib/errors],
    which is not among the sources.  The provider uses the one code
    [PROVIDER_ERROR]; the error made by [createError(code, message)] carries
    that code and that message (the tests match on both fields). *)
Inductive ErrorCode := PROVIDER_ERROR.

Record AppError := { code : ErrorCode; message : string }.

Definition createError (c : ErrorCode) (msg : string) : AppError :=
  {| code := c; message := msg |}.

(** What an [await] or an expression of the provider can throw. *)
Inductive exn :=
| App (e : AppError)
| TypeError
| SyntaxError
| Rejected (reason : string).

Inductive outcome (A : Type) :=
| Returned (a : A)
| Thrown (e : exn).
Arguments Returned {A} a.
Arguments Thrown {A} e.

Inductive level := Log | Warn | Error.

(** The console: the level and the first argument of each call, oldest
    first. *)
Definition console := list (level * string).

Definition M (A : Type) : Type := console -> outcome A * console.

Definition ret {A} (a : A) : M A := fun c => (Returned a, c).

Definition throw {A} (e : exn) : M A := fun c => (Thrown e, c).

Definition bind {A B} (m : M A) (k : A -> M B) : M B :=
  fun c =>
    match m c with
    | (Returned a, c') => k a c'
    | (Thrown e, c') => (Thrown e, c')
    end.

(** An [await] on a settled promise, or the evaluation of an expression
    that does not write to the console. *)
Definition lift {A} (o : outcome A) : M A := fun c => (o, c).

(** Sequencing of expressions that only return or throw. *)
Definition andThen {A B} (o : outcome A) (k : A -> outcome B) : outcome B :=
  match o with
  | Returned a => k a
  | Thrown e => Thrown e
  end.

Definition print (l : level) (label : string) : M unit :=
  fun c => (Returned tt, (c ++ [(l, label)])%list).

(** The outcome of a run from an empty console. *)
Definition result {A} (m : M A) : outcome A := fst (m []).

End Eff.

Declare Scope eff_scope.
Delimit Scope eff_scope with eff.
Notation "x <- m ;; k" := (Eff.bind m (fun x => k))
  (at level 61, m at next level, right associativity) : eff_scope.
Notation "m ;; k" := (Eff.bind m (fun _ => k))
  (at level 61, right associativity) : eff_scope.

Declare Scope outcome_scope.
Delimit Scope outcome_scope with outcome.
Notation "x <- m ;; k" := (Eff.andThen m (fun x => k))
  (at level 61, m at next level, right associativity) : outcome_scope.

Module Access.
Import Json Eff.
Local Open Scope outcome_scope.

(** The property [key] of a value that is neither [undefined] nor
    [null], for the identifier keys of the provider: of these keys a string
    and an array own only [length]; numbers and booleans own none. *)
Definition lookup (x : value) (key : string) : jsval :=
  match x with
  | Object props => assoc key props
  | Array items =>
      if key =? "length"
      then Some (Number (inject_Z (Z.of_nat (List.length items))))
      else None
  | Str s =>
      if key =? "length"
      then Some (Number (inject_Z (Z.of_nat (String.length s))))
      else None
  | Null | Bool _ | Number _ => None
  end.

(** [v.key]: reading a property of [undefined] or [null] is a TypeError. *)
Definition getProp (v : jsval) (key : string) : outcome jsval :=
  match v with
  | None | Some Null => Thrown TypeError
  | Some x => Returned (lookup x key)
  end.

(** The element [i] of a value that is neither [undefined] nor [null]. *)
Definition element (x : value) (i : nat) : jsval :=
  match x with
  | Array items => nth_error items i
  | Str s => option_map (fun c => Str (String c EmptyString)) (String.get i s)
  | Object props => assoc (JS.Number_toString (N.of_nat i)) props
  | Null | Bool _ | Number _ => None
  end.

(** [v[i]] *)
Definition getIndex (v : jsval) (i : nat) : outcome jsval :=
  match v with
  | None | Some Null => Thrown TypeError
  | Some x => Returned (element x i)
  end.

(** [v?.key] *)
Definition optProp (v : jsval) (key : string) : outcome jsval :=
  if nullish v then Returned None else getProp v key.

(** [data.choices[0]] *)
Definition firstChoice (data : jsval) : outcome jsval :=
  choices <- getProp data "choices" ;;
  getIndex choices 0.

(** [data.choices[0]?.message?.content] *)
Definition firstContent (data : jsval) : outcome jsval :=
  choice <- firstChoice data ;;
  message <- optProp choice "message" ;;
  optProp message "content".

(** [v?.substring(0, 200)]: only a string has the method; calling what any
    other non-nullish value holds under that name is a TypeError. *)
Definition optSubstring (v : jsval) : outcome jsval :=
  match v with
  | None | Some Null => Returned None
  | Some (Str s) => Returned (Some (Str (String.substring 0 200 s)))
  | Some _ => Thrown TypeError
  end.

(** [v.trim()] on a non-nullish value *)
Definition callTrim (v : value) : outcome string :=
  match v with
  | Str s => Returned (JS.trim s)
  | _ => Thrown TypeError
  end.

End Access.

(* ===================================================================== *)
(** ** The provider contract and the network call *)
(* ===================================================================== *)

Module Provider.
Import Json.

(** Modelled from the spec: the canonical request and result of [../types],
    which is not among the sources: role-tagged messages, an optional model,
    temperature, token limit and structured-output directive; a result of
    content and three usage counters.  The result fields hold whatever the
    decoded envelope held, so they are JavaScript values. *)
Record Message := { role : string; text_content : string }.

Record ResponseFormat := { format_type : string }.

Record CompletionParams := {
  p_model : option string;
  p_messages : list Message;
  p_temperature : option Q;
  p_max_tokens : option Q;
  p_response_format : option ResponseFormat
}.

Record Usage := {
  prompt_tokens : jsval;
  completion_tokens : jsval;
  total_tokens : jsval
}.

Record CompletionResult := { content : value; usage : Usage }.

(** The object [body] of [complete], which is sent as [JSON.stringify(body)];
    [response_format] is a property only when the parameter is present. *)
Record ChatBody := {
  model : string;
  messages : list Message;
  temperature : Q;
  max_tokens : Q;
  response_format : option ResponseFormat
}.

(** The two arguments of the global [fetch]. *)
Record FetchCall := {
  f_url : string;
  f_method : string;
  f_headers : list (string * string);
  f_body : ChatBody
}.

(** What the global [fetch] resolves with: [text] is the body read by
    [response.text()], [json] the result of [response.json()] on it, [None]
    when the body is not JSON (the promise rejects with a SyntaxError). *)
Record FetchResponse := {
  status : N;
  statusText : string;
  text : string;
  json : option value
}.

(** [response.ok] *)
Definition ok (response : FetchResponse) : bool :=
  ((200 <=? status response) && (status response <=? 299))%N.

Definition Response_json (response : FetchResponse) : Eff.outcome value :=
  match json response with
  | Some data => Eff.Returned data
  | None => Eff.Thrown Eff.SyntaxError
  end.

(** A backend that answers the call with [response]. *)
Definition respond (response : FetchResponse) : FetchCall -> Eff.outcome FetchResponse :=
  fun _ => Eff.Returned response.

(** [x ?? d] on an optional number *)
Definition numberOr (x : option Q) (d : Q) : Q :=
  match x with Some q => q | None => d end.

Definition isSlash (c : ascii) : bool := Ascii.eqb c "/".

(** [(baseUrl ?? default).trim().replace(/\/+$/, empty)] *)
Definition endpoint (baseUrl : option string) : string :=
  JS.dropWhileEnd isSlash
    (JS.trim (match baseUrl with
              | Some u => u
              | None => "https://api.z.ai/api/coding/paas/v4"
              end)).

End Provider.

(* ===================================================================== *)
(** ** [ZAIProvider], the revision with [normalizeModel] *)
(* ===================================================================== *)

Module ZAI.
Import Json Eff Access Provider.
Local Open Scope eff_scope.

Record ZAIConfig := {
  apiKey : string;
  cfg_model : option string;
  baseUrl : option string
}.

Record ZAIProvider := {
  this_apiKey : string;
  this_model : string;
  this_baseUrl : string
}.

(** [lower.includes("gpt") || lower.includes("claude") || lower.includes("gemini")] *)
Definition isNonZAIModel (lower : string) : bool :=
  JS.includes lower "gpt" || JS.includes lower "claude" || JS.includes lower "gemini".

Definition constructor (config : ZAIConfig) : ZAIProvider :=
  let providedModel :=
    match cfg_model config with
    | Some m => JS.toLowerCase m
    | None => ""
    end in
  {| this_apiKey := apiKey config;
     this_model :=
       if isNonZAIModel providedModel then "GLM-4.7"
       else match cfg_model config with
            | Some m => m
            | None => "GLM-4.7"
            end;
     this_baseUrl := endpoint (baseUrl config) |}.

Definition normalizeModel (this : ZAIProvider) (model : option string) : string :=
  match model with
  | None => this_model this
  | Some m =>
      if m =? "" then this_model this
      else
        let lower := JS.toLowerCase m in
        if isNonZAIModel lower then this_model this else m
  end.

Definition chatBody (this : ZAIProvider) (params : CompletionParams) : ChatBody :=
  {| model := normalizeModel this (p_model params);
     messages := p_messages params;
     temperature := numberOr (p_temperature params) (7 # 10);
     max_tokens := numberOr (p_max_tokens params) (1024 # 1);
     response_format := p_response_format params |}.

(** The call [fetch(`${this.baseUrl}/chat/completions`, { ... })]. *)
Definition chatCall (this : ZAIProvider) (params : CompletionParams) : FetchCall :=
  {| f_url := this_baseUrl this ++ "/chat/completions";
     f_method := "POST";
     f_headers := [("Content-Type", "application/json");
                   ("Authorization", "Bearer " ++ this_apiKey this)];
     f_body := chatBody this params |}.

Definition errorMessage (response : FetchResponse) (errorText : string) : string :=
  "Z.AI API error (" ++ JS.Number_toString (status response) ++ "): " ++ errorText.

(** The property values of the object given to [console.log] after the
    decode; they are evaluated in this order and any of them may throw. *)
Definition responseLogArguments (data : jsval) : outcome unit :=
  (_ <- getProp data "id" ;;
   choices <- getProp data "choices" ;;
   _ <- getProp choices "length" ;;
   _ <- firstContent data ;;
   c <- firstContent data ;;
   _ <- optProp c "length" ;;
   c <- firstContent data ;;
   _ <- optSubstring c ;;
   choice <- firstChoice data ;;
   _ <- optProp choice "finish_reason" ;;
   _ <- getProp data "usage" ;;
   Returned tt)%outcome.

(** [!content || content.trim() === empty] *)
Definition isEmptyContent (content : value) : outcome bool :=
  if negb (truthy (Some content)) then Returned true
  else (t <- callTrim content ;; Returned (t =? ""))%outcome.

(** [reasoningContent && data.choices[0]?.finish_reason === "length"] *)
Definition truncatedByLength (data : jsval) (reasoningContent : jsval) : outcome bool :=
  if truthy reasoningContent
  then (choice <- firstChoice data ;;
        finish <- optProp choice "finish_reason" ;;
        Returned match finish with
                 | Some (Str "length") => true
                 | _ => false
                 end)%outcome
  else Returned false.

(** The diagnostics of an empty content. *)
Definition emptyContentDiagnostics (data : jsval) (reasoningContent : jsval) : M unit :=
  truncated <- lift (truncatedByLength data reasoningContent) ;;
  (if truncated : bool
   then print Warn "[Z.AI] Content empty due to token limit, reasoning model used all tokens on chain-of-thought. Consider increasing max_tokens."
   else ret tt) ;;
  print Error "[Z.AI] Empty Response Detected:".

(** [usage: { prompt_tokens: data.usage.prompt_tokens, ... }] *)
Definition readUsage (data : jsval) : outcome Usage :=
  (usage <- getProp data "usage" ;;
   prompt <- getProp usage "prompt_tokens" ;;
   usage <- getProp data "usage" ;;
   completion <- getProp usage "completion_tokens" ;;
   usage <- getProp data "usage" ;;
   total <- getProp usage "total_tokens" ;;
   Returned {| prompt_tokens := prompt;
               completion_tokens := completion;
               total_tokens := total |})%outcome.

(** What [complete] does with the response once [fetch] has resolved. *)
Definition handle (response : FetchResponse) : M CompletionResult :=
  if negb (ok response) then
    let errorText := text response in
    print Error "[Z.AI] API Error:" ;;
    throw (App (createError PROVIDER_ERROR (errorMessage response errorText)))
  else
    d <- lift (Response_json response) ;;
    let data : jsval := Some d in
    lift (responseLogArguments data) ;;
    print Log "[Z.AI] Response:" ;;
    c <- lift (firstContent data) ;;
    let content := coalesce c (Str "") in
    reasoningContent <- lift (choice <- firstChoice data ;;
                              message <- optProp choice "message" ;;
                              optProp message "reasoning_content")%outcome ;;
    empty <- lift (isEmptyContent content) ;;
    (if empty : bool then emptyContentDiagnostics data reasoningContent else ret tt) ;;
    usage <- lift (readUsage data) ;;
    ret {| content := content; usage := usage |}.

(** [complete(params)]; [fetch] is the global [fetch], which resolves with a
    response or rejects. *)
Definition complete (this : ZAIProvider) (fetch : FetchCall -> outcome FetchResponse)
    (params : CompletionParams) : M CompletionResult :=
  print Log "[Z.AI] Request:" ;;
  response <- lift (fetch (chatCall this params)) ;;
  handle response.

Definition createZAIProvider (config : ZAIConfig) : ZAIProvider := constructor config.

End ZAI.

(* ===================================================================== *)
(** ** [ZAIProvider], the revision without [normalizeModel] *)
(* ===================================================================== *)

Module ZAI2.
Import Json Eff Access Provider.
Local Open Scope eff_scope.

Record ZAIConfig := {
  apiKey : string;
  cfg_model : option string;
  baseUrl : option string
}.

Record ZAIProvider := {
  this_apiKey : string;
  this_model : string;
  this_baseUrl : string
}.

Definition constructor (config : ZAIConfig) : ZAIProvider :=
  {| this_apiKey := apiKey config;
     this_model := match cfg_model config with
                   | Some m => m
                   | None => "GLM-4.7"
                   end;
     this_baseUrl := endpoint (baseUrl config) |}.

Definition chatBody (this : ZAIProvider) (params : CompletionParams) : ChatBody :=
  {| model := match p_model params with
              | Some m => m
              | None => this_model this
              end;
     messages := p_messages params;
     temperature := numberOr (p_temperature params) (7 # 10);
     max_tokens := numberOr (p_max_tokens params) (1024 # 1);
     response_format := p_response_format params |}.

Definition chatCall (this : ZAIProvider) (params : CompletionParams) : FetchCall :=
  {| f_url := this_baseUrl this ++ "/chat/completions";
     f_method := "POST";
     f_headers := [("Content-Type", "application/json");
                   ("Authorization", "Bearer " ++ this_apiKey this)];
     f_body := chatBody this params |}.

Definition errorMessage (response : FetchResponse) (errorText : string) : string :=
  "Z.AI API error (" ++ JS.Number_toString (status response) ++ "): " ++ errorText.

Definition readUsage (data : jsval) : outcome Usage :=
  (usage <- getProp data "usage" ;;
   prompt <- getProp usage "prompt_tokens" ;;
   usage <- getProp data "usage" ;;
   completion <- getProp usage "completion_tokens" ;;
   usage <- getProp data "usage" ;;
   total <- getProp usage "total_tokens" ;;
   Returned {| prompt_tokens := prompt;
               completion_tokens := completion;
               total_tokens := total |})%outcome.

Definition handle (response : FetchResponse) : M CompletionResult :=
  if negb (ok response) then
    let errorText := text response in
    throw (App (createError PROVIDER_ERROR (errorMessage response errorText)))
  else
    d <- lift (Response_json response) ;;
    let data : jsval := Some d in
    c <- lift (firstContent data) ;;
    let content := coalesce c (Str "") in
    usage <- lift (readUsage data) ;;
    ret {| content := content; usage := usage |}.

Definition complete (this : ZAIProvider) (fetch : FetchCall -> outcome FetchResponse)
    (params : CompletionParams) : M CompletionResult :=
  response <- lift (fetch (chatCall this params)) ;;
  handle response.

Definition createZAIProvider (config : ZAIConfig) : ZAIProvider := constructor config.

End ZAI2.

(* ===================================================================== *)
(** ** The specification's own wording, for comparison with the code *)
(* ===================================================================== *)

Module Spec.

Definition isDigit (c : ascii) : bool :=
  let n := N_of_ascii c in ((48 <=? n) && (n <=? 57))%N.

Fixpoint allDigits (s : string) : bool :=
  match s with
  | EmptyString => true
  | String c t => isDigit c && allDigits t
  end.

(** A port: a non-empty run of decimal digits. *)
Definition isPort (s : string) : bool :=
  negb (s =? "") && allDigits s.

(** The origin pattern of the specification: [http://localhost:<port>] or
    [http://127.0.0.1:<port>]. *)
Definition loopbackOrigin (origin : string) : bool :=
  (JS.startsWith origin "http://localhost:" && isPort (JS.slice origin 17))
  || (JS.startsWith origin "http://127.0.0.1:" && isPort (JS.slice origin 17)).

(** The error text the specification documents for the 401 body. *)
Definition documented_message : string :=
  "Unauthorized. Requires: Authorization: Bearer <token>".

(** The number a decimal numeral denotes. *)
Definition decimal (numeral : string) : option N :=
  option_map N.of_uint (NilZero.uint_of_string numeral).

End Spec.

(* ===================================================================== *)
(** ** Concrete requests, environments and envelopes *)
(* ===================================================================== *)

Module Fixtures.
Import Worker.

Definition notFound : Response :=
  {| status := 404; statusText := "Not Found"; r_headers := []; r_body := None |}.

(** An actor reply that already carries a CORS header of its own and a
    header that occurs twice. *)
Definition actorReply : Response :=
  {| status := 201; statusText := "Created";
     r_headers := [("content-type", "text/plain");
                   ("access-control-allow-origin", "*");
                   ("set-cookie", "a=1");
                   ("set-cookie", "b=2")];
     r_body := Some "state" |}.

Definition env (token allowList : option string) : Env :=
  {| MAHORAGA_API_TOKEN := token;
     CORS_ALLOWED_ORIGINS := allowList;
     ENVIRONMENT := Some "test";
     ASSETS := fun _ => notFound;
     HARNESS := fun _ => actorReply;
     MCP_AGENT := fun _ => notFound |}.

Definition request (m path query : string) (hs : Headers.t) : Request :=
  {| method := m; url := {| pathname := path; search := query |};
     headers := hs; body := None |}.

(** Providers of the two revisions, configured with a key only. *)
Definition zai : ZAI.ZAIProvider :=
  ZAI.createZAIProvider {| ZAI.apiKey := "zai-test"; ZAI.cfg_model := None; ZAI.baseUrl := None |}.

Definition zai2 : ZAI2.ZAIProvider :=
  ZAI2.createZAIProvider
    {| ZAI2.apiKey := "zai-test"; ZAI2.cfg_model := None; ZAI2.baseUrl := None |}.

(** The providers of the repository's test of a model given in the
    parameters. *)
Definition zaiDefault : ZAI.ZAIProvider :=
  ZAI.createZAIProvider
    {| ZAI.apiKey := "zai-test"; ZAI.cfg_model := Some "zai-default"; ZAI.baseUrl := None |}.

Definition zai2Default : ZAI2.ZAIProvider :=
  ZAI2.createZAIProvider
    {| ZAI2.apiKey := "zai-test"; ZAI2.cfg_model := Some "zai-default"; ZAI2.baseUrl := None |}.

Definition ask (model : option string) : Provider.CompletionParams :=
  {| Provider.p_model := model;
     Provider.p_messages := [{| Provider.role := "user"; Provider.text_content := "Test" |}];
     Provider.p_temperature := None;
     Provider.p_max_tokens := None;
     Provider.p_response_format := None |}.

Definition reply (code : N) (bodyText : string) (decoded : option Json.value)
  : Provider.FetchResponse :=
  {| Provider.status := code; Provider.statusText := "";
     Provider.text := bodyText; Provider.json := decoded |}.

Definition counters : Json.value :=
  Json.Object [("prompt_tokens", Json.Number (10 # 1));
               ("completion_tokens", Json.Number (0 # 1));
               ("total_tokens", Json.Number (10 # 1))].

(** [{ choices: [{ message: { role: "assistant" } }], usage: {...} }],
    the envelope of the repository's test of an empty content. *)
Definition noContent : Json.value :=
  Json.Object [("id", Json.Str "zai-chatcmpl-222");
               ("choices", Json.Array
                  [Json.Object [("message", Json.Object [("role", Json.Str "assistant")])]]);
               ("usage", counters)].

(** [{ choices: [{ message: {} }] }], the envelope of the specification's
    example, which has no usage. *)
Definition bareMessage : Json.value :=
  Json.Object [("choices", Json.Array [Json.Object [("message", Json.Object [])]])].

(** [{ choices: [], usage: {...} }] *)
Definition noChoices : Json.value :=
  Json.Object [("choices", Json.Array []); ("usage", counters)].

(** [{ choices: [{ message: { content: "hi" } }] }] *)
Definition noUsage : Json.value :=
  Json.Object [("choices", Json.Array
                  [Json.Object [("message", Json.Object [("content", Json.Str "hi")])]])].

(** [{ choices: [{ message: { content: "hi" } }], usage: {} }] *)
Definition emptyUsage : Json.value :=
  Json.Object [("choices", Json.Array
                  [Json.Object [("message", Json.Object [("content", Json.Str "hi")])]]);
               ("usage", Json.Object [])].

End Fixtures.

(* ===================================================================== *)
(** ** The dashboard's development proxy ([vite.config.ts]) *)
(* ===================================================================== *)

Module Vite.

(** The settings the configuration reads, which it reads from two objects:
    [env], the object [loadEnv(mode, process.cwd(), '')] returns, and
    [process.env].  With the empty prefix [loadEnv] returns the variables
    of the env files together with those of the process, so [env] is not
    the env files alone.  A setting may be undefined. *)
Record Settings := {
  MAHORAGA_API_URL : option string;
  WRANGLER_PORT : option string;
  CF_ACCESS_CLIENT_ID : option string;
  CF_ACCESS_CLIENT_SECRET : option string
}.

(** ToBoolean of a setting *)
Definition isSet (x : option string) : bool :=
  match x with
  | Some s => negb (s =? "")
  | None => false
  end.

(** [a || b] on two settings *)
Definition either (a b : option string) : option string :=
  if isSet a then a else b.

(** [apiTarget] *)
Definition apiTarget (env processEnv : Settings) : string :=
  JS.orElse (MAHORAGA_API_URL env)
    (JS.orElse (MAHORAGA_API_URL processEnv)
       ("http://localhost:"
        ++ JS.orElse (WRANGLER_PORT env) (JS.orElse (WRANGLER_PORT processEnv) "8787"))).

(** [rewrite: (path) => path.replace(/^\/api/, '/agent')]: the pattern is
    anchored at the start of the path. *)
Definition rewrite (path : string) : string :=
  if JS.startsWith path "/api" then "/agent" ++ JS.slice path 4 else path.

(** The [proxyReq] listener of the revision that has [configure], on the
    headers of the outgoing request; [setHeader] replaces the header of
    that name. *)
Definition onProxyReq (env processEnv : Settings) (proxyReq : Headers.t) : Headers.t :=
  let cfAccessClientId := either (CF_ACCESS_CLIENT_ID env) (CF_ACCESS_CLIENT_ID processEnv) in
  let cfAccessClientSecret :=
    either (CF_ACCESS_CLIENT_SECRET env) (CF_ACCESS_CLIENT_SECRET processEnv) in
  if isSet cfAccessClientId && isSet cfAccessClientSecret then
    match cfAccessClientId, cfAccessClientSecret with
    | Some id, Some secret =>
        Headers.set (Headers.set proxyReq "CF-Access-Client-Id" id)
                    "CF-Access-Client-Secret" secret
    | _, _ => proxyReq
    end
  else proxyReq.

End Vite.

(* ===================================================================== *)
(** ** Variations of a request and of an environment *)
(* ===================================================================== *)

Module Vary.
Import Worker.

(** The same request on another path. *)
Definition withPath (request : Request) (path : string) : Request :=
  {| method := method request;
     url := {| pathname := path; search := search (url request) |};
     headers := headers request;
     body := body request |}.

(** The same environment with another secret. *)
Definition withToken (env : Env) (token : option string) : Env :=
  {| MAHORAGA_API_TOKEN := token;
     CORS_ALLOWED_ORIGINS := CORS_ALLOWED_ORIGINS env;
     ENVIRONMENT := ENVIRONMENT env;
     ASSETS := ASSETS env;
     HARNESS := HARNESS env;
     MCP_AGENT := MCP_AGENT env |}.

(** The same environment with another MCP mount. *)
Definition withMcp (env : Env) (mount : Request -> Response) : Env :=
  {| MAHORAGA_API_TOKEN := MAHORAGA_API_TOKEN env;
     CORS_ALLOWED_ORIGINS := CORS_ALLOWED_ORIGINS env;
     ENVIRONMENT := ENVIRONMENT env;
     ASSETS := ASSETS env;
     HARNESS := HARNESS env;
     MCP_AGENT := mount |}.

(** A string of [n] slashes. *)
Fixpoint slashes (n : nat) : string :=
  match n with
  | O => EmptyString
  | S k => String "/" (slashes k)
  end.

(** An actor reply that sends the same CORS header twice. *)
Definition doubledReply : Response :=
  {| status := 200; statusText := "OK";
     r_headers := [("Access-Control-Allow-Origin", "https://one.example");
                   ("x-trace", "1");
                   ("access-control-allow-origin", "https://two.example")];
     r_body := Some "state" |}.

(** An envelope whose reasoning used up the token limit:
    [{ choices: [{ message: { reasoning_content: "thinking" },
                   finish_reason: "length" }], usage: {} }] *)
Definition cutShort : Json.value :=
  Json.Object
    [("choices", Json.Array
        [Json.Object [("message", Json.Object [("reasoning_content", Json.Str "thinking")]);
                      ("finish_reason", Json.Str "length")]]);
     ("usage", Json.Object [])].

Definition doubledEnv : Env :=
  {| MAHORAGA_API_TOKEN := Some "s3cret";
     CORS_ALLOWED_ORIGINS := None;
     ENVIRONMENT := None;
     ASSETS := fun _ => Fixtures.notFound;
     HARNESS := fun _ => doubledReply;
     MCP_AGENT := fun _ => Fixtures.actorReply |}.

End Vary.

(* ===================================================================== *)
(** ** Facts about the string primitives *)
(* ===================================================================== *)

Lemma prefix_app (p r : string) : String.prefix p (p ++ r) = true.
Proof.
  induction p as [|c p IH]; simpl.
  - now destruct r.
  - destruct (ascii_dec c c) as [_|n]; [exact IH | now elim n].
Qed.

Lemma prefix_split (p s : string) :
  String.prefix p s = true -> exists r, s = p ++ r.
Proof.
  revert s; induction p as [|c p IH]; intros s H.
  - now exists s.
  - destruct s as [|d s]; simpl in H; [discriminate|].
    destruct (ascii_dec c d) as [->|]; [|discriminate].
    destruct (IH s H) as [r ->]. now exists r.
Qed.

Lemma startsWith_iff (s p : string) :
  JS.startsWith s p = true <-> exists r, s = p ++ r.
Proof.
  unfold JS.startsWith; split.
  - apply prefix_split.
  - intros [r ->]. apply prefix_app.
Qed.

Lemma slice_app (p r : string) : JS.slice (p ++ r) (String.length p) = r.
Proof.
  induction p as [|c p IH]; simpl; [now destruct r | exact IH].
Qed.

Lemma replace_prefix (p r : string) : JS.replace (p ++ r) p "" = r.
Proof.
  destruct p as [|c p].
  - destruct r; reflexivity.
  - change (JS.replace (String c p ++ r) (String c p) "")
      with (if String.prefix (String c p) (String c p ++ r)
            then "" ++ JS.slice (String c p ++ r) (String.length (String c p))
            else String c (JS.replace (p ++ r) (String c p) "")).
    rewrite prefix_app. simpl. apply slice_app.
Qed.

Lemma includes_prefix (s x : string) :
  String.prefix x s = true -> JS.includes s x = true.
Proof.
  intros H. destruct s; cbn [JS.includes]; rewrite H; reflexivity.
Qed.

Lemma includes_app (a x b : string) : JS.includes (a ++ x ++ b) x = true.
Proof.
  induction a as [|c a IH].
  - change ("" ++ x ++ b) with (x ++ b). apply includes_prefix, prefix_app.
  - simpl. rewrite IH. apply orb_true_r.
Qed.

Lemma includes_split (s x : string) :
  JS.includes s x = true -> exists a b, s = a ++ x ++ b.
Proof.
  induction s as [|c s IH]; cbn [JS.includes]; intros H.
  - rewrite orb_false_r in H. apply prefix_split in H as [r ->].
    now exists "", r.
  - apply orb_true_iff in H as [H|H].
    + apply prefix_split in H as [r ->]. now exists "", r.
    + destruct (IH H) as (a & b & ->). now exists (String c a), b.
Qed.

Lemma append_associative (a b c : string) : a ++ b ++ c = (a ++ b) ++ c.
Proof.
  induction a as [|x a IH]; simpl; [reflexivity | now rewrite IH].
Qed.

Lemma includes_suffix (a x : string) : JS.includes (a ++ x) x = true.
Proof.
  induction a as [|c a IH].
  - apply includes_prefix. destruct x as [|c x]; [reflexivity|].
    rewrite <- (prefix_app (String c x) ""). f_equal.
    change ("" ++ String c x) with (String c x).
    induction (String c x) as [|y s IHs]; simpl; [reflexivity | now rewrite <- IHs].
  - simpl. rewrite IH. apply orb_true_r.
Qed.

Lemma toLowerCase_app (a b : string) :
  JS.toLowerCase (a ++ b) = JS.toLowerCase a ++ JS.toLowerCase b.
Proof.
  induction a as [|c a IH]; simpl; [reflexivity | now rewrite IH].
Qed.


Lemma append_length (a b : string) :
  String.length (a ++ b) = String.length a + String.length b.
Proof.
  induction a as [|c a IH]; simpl; [reflexivity | now rewrite IH].
Qed.

Lemma arrayIncludes_In (arr : list string) (x : string) :
  JS.arrayIncludes arr x = true <-> In x arr.
Proof.
  unfold JS.arrayIncludes. rewrite existsb_exists. split.
  - intros (y & Hy & E). apply String.eqb_eq in E. now subst.
  - intros H. exists x. split; [assumption | apply String.eqb_refl].
Qed.

(** [split] is inverted by [join], and no piece holds the separator. *)
Lemma split_nonempty (s : string) (sep : ascii) : JS.split s sep <> [].
Proof.
  destruct s as [|c s]; simpl; [discriminate|].
  destruct (Ascii.eqb c sep); [discriminate|].
  destruct (JS.split s sep); discriminate.
Qed.


Lemma split_app (a b : string) (sep : ascii) :
  JS.split (a ++ String sep b) sep = (JS.split a sep ++ JS.split b sep)%list.
Proof.
  induction a as [|c a IH]; simpl.
  - now rewrite Ascii.eqb_refl.
  - rewrite IH. destruct (Ascii.eqb c sep); [reflexivity|].
    pose proof (split_nonempty a sep) as NE.
    destruct (JS.split a sep) as [|p r]; [now elim NE | reflexivity].
Qed.

(* ===================================================================== *)
(** ** The authorization guard *)
(* ===================================================================== *)

Section Comparator.
Import Worker.

Lemma mismatch_fold_zero (a b : string) (l : list nat) (m : Z) :
  fold_left (mismatch_step a b) l m = 0%Z <->
  m = 0%Z /\ forall i, In i l -> differenceAt a b i = 0%Z.
Proof.
  revert m; induction l as [|j l IH]; intros m; simpl.
  - split; [intros ->; split; [reflexivity | intros i []] | intros [-> _]; reflexivity].
  - rewrite IH. unfold mismatch_step at 1. rewrite Z.lor_eq_0_iff. split.
    + intros [[Hm Hj] Hl]. split; [assumption|].
      intros i [<-|Hi]; [assumption | now apply Hl].
    + intros [Hm Hl]. repeat split; auto.
Qed.


Lemma charCodeAt_shift (c : ascii) (s : string) (i : nat) :
  JS.charCodeAt (String c s) (S i) = JS.charCodeAt s i.
Proof. reflexivity. Qed.

Lemma code_unit_inj (c d : ascii) :
  Z.of_N (N_of_ascii c) = Z.of_N (N_of_ascii d) -> c = d.
Proof.
  intros H. apply N2Z.inj in H.
  rewrite <- (ascii_N_embedding c), <- (ascii_N_embedding d). now rewrite H.
Qed.

Lemma same_code_units (a b : string) :
  String.length a = String.length b ->
  (forall i, i < String.length a -> differenceAt a b i = 0%Z) ->
  a = b.
Proof.
  revert b; induction a as [|c a IH]; intros [|d b] L H; try discriminate.
  - reflexivity.
  - simpl in L. injection L as L.
    f_equal.
    + specialize (H 0 (Nat.lt_0_succ _)). unfold differenceAt in H. cbn in H.
      apply Z.lxor_eq in H. now apply code_unit_inj.
    + apply IH; [assumption|].
      intros i Hi. specialize (H (S i)). unfold differenceAt in *.
      rewrite !charCodeAt_shift in H. apply H. simpl. lia.
Qed.

Lemma mismatch_loop_zero (a b : string) :
  String.length a = String.length b ->
  (mismatch_loop a b = 0%Z <-> a = b).
Proof.
  intros L. unfold mismatch_loop. rewrite mismatch_fold_zero. split.
  - intros [_ H]. apply same_code_units; [assumption|].
    intros i Hi. apply H. apply in_seq. lia.
  - intros ->. split; [reflexivity|]. intros i _. apply Z.lxor_nilpotent.
Qed.


Lemma constantTimeCompare_true (a b : string) :
  constantTimeCompare a b = true <-> a = b.
Proof.
  unfold constantTimeCompare.
  destruct (String.length a =? String.length b)%nat eqn:L; simpl.
  - apply Nat.eqb_eq in L. rewrite Z.eqb_eq. now apply mismatch_loop_zero.
  - split; [discriminate|]. intros ->. now rewrite Nat.eqb_refl in L.
Qed.




End Comparator.


(* ===================================================================== *)
(** ** The CORS policy resolver *)
(* ===================================================================== *)

Section Cors.
Import Worker.

Lemma allowHeaders_nonempty (origin : string) : allowHeaders origin <> [].
Proof. discriminate. Qed.

Lemma isLocalhost_iff (origin : string) :
  isLocalhost origin = true <->
  (exists rest, origin = "http://localhost:" ++ rest) \/
  (exists rest, origin = "http://127.0.0.1:" ++ rest).
Proof.
  unfold isLocalhost. now rewrite orb_true_iff, !startsWith_iff.
Qed.

Lemma allowed_iff (request : Request) (env : Env) :
  allowed request env = true <->
  (exists rest, requestOrigin request = "http://localhost:" ++ rest) \/
  (exists rest, requestOrigin request = "http://127.0.0.1:" ++ rest) \/
  In (requestOrigin request) (allowedOrigins env) \/
  In "*" (allowedOrigins env).
Proof.
  unfold allowed. rewrite !orb_true_iff, isLocalhost_iff, !arrayIncludes_In. tauto.
Qed.

Lemma getCorsHeaders_allowed (request : Request) (env : Env) :
  allowed request env = true ->
  getCorsHeaders request env = allowHeaders (requestOrigin request).
Proof. unfold getCorsHeaders, allowed. now intros ->. Qed.

Lemma getCorsHeaders_rejected (request : Request) (env : Env) :
  allowed request env = false -> getCorsHeaders request env = [].
Proof. unfold getCorsHeaders, allowed. now intros ->. Qed.

Lemma loopbackOrigin_isLocalhost (origin : string) :
  Spec.loopbackOrigin origin = true -> isLocalhost origin = true.
Proof.
  unfold Spec.loopbackOrigin, isLocalhost. rewrite !orb_true_iff, !andb_true_iff. tauto.
Qed.

Lemma subdomain_differs (sub : string) : sub ++ ".a.example" <> "a.example".
Proof.
  intros H. apply (f_equal String.length) in H.
  rewrite append_length in H. simpl in H. lia.
Qed.

End Cors.

(** C1, as amended.  [getCorsHeaders] returns the four headers (the request
    origin echoed, the methods, the headers, a max-age) exactly when the
    origin starts with [http://localhost:] or [http://127.0.0.1:], whatever
    follows, or is an element of the comma-split trimmed allow-list, or that
    list holds the wildcard; otherwise it returns the empty object.  An
    origin of the specification's pattern (loopback host and a port) is
    among the allowed ones.  For the allow-list [https://a.example] that
    exact origin is allowed, and [https://a.example:443] and every
    subdomain are rejected. *)
Theorem C1_getCorsHeaders_decision (request : Worker.Request) (env : Worker.Env) :
  let origin := Worker.requestOrigin request in
  let allowList := Worker.allowedOrigins env in
  let granted :=
    (exists rest, origin = "http://localhost:" ++ rest) \/
    (exists rest, origin = "http://127.0.0.1:" ++ rest) \/
    In origin allowList \/ In "*" allowList in
  allowList = match Worker.CORS_ALLOWED_ORIGINS env with
              | Some setting => map JS.trim (JS.split setting ",")
              | None => []
              end
  /\ (Worker.getCorsHeaders request env =
        [ ("Access-Control-Allow-Origin", origin);
          ("Access-Control-Allow-Methods", "GET, POST, PUT, DELETE, OPTIONS");
          ("Access-Control-Allow-Headers", "Content-Type, Authorization");
          ("Access-Control-Max-Age", "86400") ]
      <-> granted)
  /\ (Worker.getCorsHeaders request env = [] <-> ~ granted)
  /\ (Spec.loopbackOrigin origin = true ->
      Worker.getCorsHeaders request env = Worker.allowHeaders origin)
  /\ (Worker.CORS_ALLOWED_ORIGINS env = Some "https://a.example" ->
      (origin = "https://a.example" ->
       Worker.getCorsHeaders request env = Worker.allowHeaders origin)
      /\ (origin = "https://a.example:443" -> Worker.getCorsHeaders request env = [])
      /\ (forall sub, origin = "https://" ++ sub ++ ".a.example" ->
          Worker.getCorsHeaders request env = [])).
Proof.
  cbv zeta.
  pose proof (allowed_iff request env) as A.
  split; [reflexivity|].
  split.
  { rewrite <- A. change (Worker.getCorsHeaders request env)
      with (if Worker.allowed request env
            then Worker.allowHeaders (Worker.requestOrigin request) else []).
    destruct (Worker.allowed request env); split; intros; try reflexivity; discriminate. }
  split.
  { rewrite <- A. change (Worker.getCorsHeaders request env)
      with (if Worker.allowed request env
            then Worker.allowHeaders (Worker.requestOrigin request) else []).
    destruct (Worker.allowed request env); split; intros H; try reflexivity;
      try discriminate; now elim H. }
  split.
  { intros H. apply getCorsHeaders_allowed. unfold Worker.allowed.
    now rewrite (loopbackOrigin_isLocalhost _ H). }
  intros S.
  assert (L : Worker.allowedOrigins env = ["https://a.example"])
    by (unfold Worker.allowedOrigins; rewrite S; reflexivity).
  split; [|split].
  - intros O. apply getCorsHeaders_allowed. unfold Worker.allowed. rewrite L, O. reflexivity.
  - intros O. apply getCorsHeaders_rejected. unfold Worker.allowed. rewrite L, O. reflexivity.
  - intros sub O. apply getCorsHeaders_rejected. unfold Worker.allowed. rewrite L, O.
    assert (E : ("https://" ++ sub ++ ".a.example" =? "https://a.example") = false).
    { apply String.eqb_neq. intros H. simpl in H.
      repeat (injection H as H). now apply (subdomain_differs sub). }
    unfold JS.arrayIncludes. cbn [existsb]. rewrite E. reflexivity.
Qed.

(** C1, the claim as stated, fails: the origin [http://localhost:evil]
    with no allow-list is granted the four headers, although it is not a
    loopback origin with a port, is not in the allow-list, and the
    allow-list holds no wildcard. *)
Lemma C1_counterexample_not_a_port :
  let request := Fixtures.request "GET" "/api/status" ""
                   [("origin", "http://localhost:evil")] in
  let env := Fixtures.env None None in
  Worker.requestOrigin request = "http://localhost:evil"
  /\ Worker.getCorsHeaders request env = Worker.allowHeaders "http://localhost:evil"
  /\ Worker.getCorsHeaders request env <> []
  /\ Spec.loopbackOrigin (Worker.requestOrigin request) = false
  /\ JS.arrayIncludes (Worker.allowedOrigins env) (Worker.requestOrigin request) = false
  /\ JS.arrayIncludes (Worker.allowedOrigins env) "*" = false.
Proof.
  cbv zeta. repeat split; try reflexivity. discriminate.
Qed.

(** C10.  When the [Origin] header starts with [http://localhost:] or
    [http://127.0.0.1:], the resolver grants the four headers with that
    origin echoed, whatever follows the colon and whatever the allow-list
    is: the test is [startsWith], and [http://localhost:evil], which has
    no port, passes it. *)
Theorem C10_localhost_is_a_prefix_test
    (request : Worker.Request) (env : Worker.Env) (rest : string) :
  Headers.get (Worker.headers request) "Origin" = Some ("http://localhost:" ++ rest)
  \/ Headers.get (Worker.headers request) "Origin" = Some ("http://127.0.0.1:" ++ rest) ->
  exists origin,
    Headers.get (Worker.headers request) "Origin" = Some origin
    /\ Worker.isLocalhost origin =
       (JS.startsWith origin "http://localhost:" || JS.startsWith origin "http://127.0.0.1:")
    /\ Worker.getCorsHeaders request env = Worker.allowHeaders origin
    /\ Headers.get (Headers.of_record (Worker.getCorsHeaders request env))
         "Access-Control-Allow-Origin" = Some origin.
Proof.
  intros [H|H].
  - exists ("http://localhost:" ++ rest).
    assert (O : Worker.requestOrigin request = "http://localhost:" ++ rest)
      by (unfold Worker.requestOrigin; rewrite H; reflexivity).
    assert (G : Worker.getCorsHeaders request env
                = Worker.allowHeaders ("http://localhost:" ++ rest)).
    { rewrite <- O. apply getCorsHeaders_allowed. apply allowed_iff. left. now exists rest. }
    repeat split; [assumption | assumption | rewrite G; reflexivity].
  - exists ("http://127.0.0.1:" ++ rest).
    assert (O : Worker.requestOrigin request = "http://127.0.0.1:" ++ rest)
      by (unfold Worker.requestOrigin; rewrite H; reflexivity).
    assert (G : Worker.getCorsHeaders request env
                = Worker.allowHeaders ("http://127.0.0.1:" ++ rest)).
    { rewrite <- O. apply getCorsHeaders_allowed. apply allowed_iff. right. left. now exists rest. }
    repeat split; [assumption | assumption | rewrite G; reflexivity].
Qed.

(** C10 at the origin [http://localhost:evil], with an allow-list that
    names another origin only. *)
Lemma C10_witness_localhost_evil :
  exists origin,
    Headers.get (Worker.headers (Fixtures.request "GET" "/api/status" ""
                                   [("origin", "http://localhost:evil")])) "Origin"
      = Some origin
    /\ Worker.isLocalhost origin =
       (JS.startsWith origin "http://localhost:" || JS.startsWith origin "http://127.0.0.1:")
    /\ Worker.getCorsHeaders
         (Fixtures.request "GET" "/api/status" "" [("origin", "http://localhost:evil")])
         (Fixtures.env None (Some "https://a.example"))
       = Worker.allowHeaders origin
    /\ Headers.get
         (Headers.of_record
            (Worker.getCorsHeaders
               (Fixtures.request "GET" "/api/status" "" [("origin", "http://localhost:evil")])
               (Fixtures.env None (Some "https://a.example"))))
         "Access-Control-Allow-Origin" = Some origin.
Proof.
  apply (C10_localhost_is_a_prefix_test
           (Fixtures.request "GET" "/api/status" "" [("origin", "http://localhost:evil")])
           (Fixtures.env None (Some "https://a.example")) "evil").
  left. reflexivity.
Defined.

(* ===================================================================== *)
(** ** Facts about [Headers] *)
(* ===================================================================== *)

Section HeaderFacts.
Import Headers.

Lemma lower_byte_idem (c : ascii) : lower_byte (lower_byte c) = lower_byte c.
Proof. destruct c as [[] [] [] [] [] [] [] []]; reflexivity. Qed.

Lemma lower_idem (s : string) : lower (lower s) = lower s.
Proof.
  induction s as [|c s IH]; simpl; [reflexivity|].
  now rewrite lower_byte_idem, IH.
Qed.

Lemma named_iff (name : string) (e : string * string) :
  named name e = true <-> lower (fst e) = lower name.
Proof. unfold named. apply String.eqb_eq. Qed.

Lemma named_self (name value : string) : named name (lower name, value) = true.
Proof. apply named_iff. simpl. apply lower_idem. Qed.

Lemma named_other (name name' : string) (e : string * string) :
  lower name' <> lower name -> named name e = true -> named name' e = false.
Proof.
  intros NE H. apply named_iff in H. unfold named. apply String.eqb_neq. congruence.
Qed.

Lemma named_ext (name name' : string) (e : string * string) :
  lower name' = lower name -> named name' e = named name e.
Proof. unfold named. now intros ->. Qed.

Lemma filter_without (q : string * string -> bool) (name : string) (h : t) :
  (forall e, named name e = true -> q e = false) ->
  filter q (filter (fun x => negb (named name x)) h) = filter q h.
Proof.
  intros Q. induction h as [|e r IH]; simpl; [reflexivity|].
  destruct (named name e) eqn:N; simpl.
  - now rewrite (Q e N).
  - now rewrite IH.
Qed.

(** [set] leaves alone whatever a predicate selects, when the predicate
    selects no header of the name that is set. *)
Lemma set_frame (q : string * string -> bool) (h : t) (name value : string) :
  (forall e, named name e = true -> q e = false) ->
  filter q (set h name value) = filter q h.
Proof.
  intros Q. induction h as [|e r IH]; simpl.
  - now rewrite (Q _ (named_self name value)).
  - destruct (named name e) eqn:N; simpl.
    + rewrite (Q e N), (Q (fst e, value) N). now apply filter_without.
    + now rewrite IH.
Qed.

Lemma filter_named_removed (name : string) (h : t) :
  filter (named name) (filter (fun x => negb (named name x)) h) = [].
Proof.
  induction h as [|e r IH]; simpl; [reflexivity|].
  destruct (named name e) eqn:N; simpl; [assumption | now rewrite N].
Qed.

Lemma values_set (h : t) (name value : string) :
  values (set h name value) name = [value].
Proof.
  unfold values. induction h as [|e r IH]; simpl.
  - now rewrite named_self.
  - destruct (named name e) eqn:N; simpl.
    + change (named name (fst e, value)) with (named name e).
      rewrite N. simpl. now rewrite filter_named_removed.
    + now rewrite N.
Qed.

Lemma values_ext (h : t) (name name' : string) :
  lower name' = lower name -> values h name' = values h name.
Proof.
  intros E. unfold values. f_equal. apply filter_ext. intros e. now apply named_ext.
Qed.

Lemma get_set_same (h : t) (name name' value : string) :
  lower name' = lower name -> get (set h name value) name' = Some value.
Proof.
  intros E. unfold get. now rewrite (values_ext _ _ _ E), values_set.
Qed.

Lemma get_set_other (h : t) (name name' value : string) :
  lower name' <> lower name -> get (set h name value) name' = get h name'.
Proof.
  intros NE. unfold get, values.
  rewrite set_frame; [reflexivity|]. intros e. now apply named_other.
Qed.

End HeaderFacts.

Section Overlay.
Import Worker.

Lemma setAll_frame (q : string * string -> bool) (corsHeaders : list (string * string))
    (h : Headers.t) :
  (forall kv e, In kv corsHeaders -> Headers.named (fst kv) e = true -> q e = false) ->
  filter q (setAll h corsHeaders) = filter q h.
Proof.
  unfold setAll. revert h. induction corsHeaders as [|kv r IH]; intros h Q; simpl.
  - reflexivity.
  - rewrite IH by (intros kv' e I; apply Q; now right).
    apply set_frame. intros e. apply Q. now left.
Qed.

Lemma setAll_other (corsHeaders : list (string * string)) (h : Headers.t) (name : string) :
  ~ In (Headers.lower name) (keys corsHeaders) ->
  Headers.get (setAll h corsHeaders) name = Headers.get h name.
Proof.
  intros NI. unfold Headers.get, Headers.values.
  rewrite setAll_frame; [reflexivity|].
  intros kv e I N. apply named_other with (name := fst kv); [|assumption].
  intros E. apply NI. unfold keys. rewrite E. now apply in_map with (f := fun kv => Headers.lower (fst kv)).
Qed.

Lemma setAll_same (corsHeaders : list (string * string)) (h : Headers.t) (k v : string) :
  NoDup (keys corsHeaders) -> In (k, v) corsHeaders ->
  Headers.get (setAll h corsHeaders) k = Some v.
Proof.
  revert h. induction corsHeaders as [|kv r IH]; intros h ND I; [destruct I|].
  simpl in ND. inversion ND as [|x l NI ND']; subst.
  destruct I as [->|I].
  - change (setAll h ((k, v) :: r)) with (setAll (Headers.set h k v) r).
    rewrite setAll_other by exact NI. now apply get_set_same.
  - change (setAll h (kv :: r)) with (setAll (Headers.set h (fst kv) (snd kv)) r).
    now apply IH.
Qed.

Lemma setAll_keeps_the_rest (corsHeaders : list (string * string)) (h : Headers.t) :
  filter (fun e => negb (overlaid corsHeaders e)) (setAll h corsHeaders)
  = filter (fun e => negb (overlaid corsHeaders e)) h.
Proof.
  apply setAll_frame. intros kv e I N.
  apply negb_false_iff. unfold overlaid. apply existsb_exists. now exists kv.
Qed.

Lemma allowHeaders_keys (origin : string) : NoDup (keys (allowHeaders origin)).
Proof.
  unfold keys, allowHeaders. cbn.
  repeat constructor; cbn; intuition discriminate.
Qed.

Lemma getCorsHeaders_keys (request : Request) (env : Env) :
  NoDup (keys (getCorsHeaders request env)).
Proof.
  unfold getCorsHeaders.
  destruct (_ || _); [apply allowHeaders_keys | constructor].
Qed.

End Overlay.

(* ===================================================================== *)
(** ** The router *)
(* ===================================================================== *)

Section Router.
Import Worker.

Lemma fetch_options (now : string) (request : Request) (env : Env) :
  (method request =? "OPTIONS") = true ->
  fetch now request env =
  {| status := 204; statusText := "";
     r_headers := Headers.of_record (getCorsHeaders request env); r_body := None |}.
Proof. unfold fetch. now intros ->. Qed.

(** The two proxied classes: the path starts with [/api], or with [/agent]. *)
Lemma fetch_proxied (now : string) (request : Request) (env : Env) (prefix rest : string) :
  (method request =? "OPTIONS") = false ->
  prefix = "/api" \/ prefix = "/agent" ->
  pathname (url request) = prefix ++ rest ->
  fetch now request env = proxy prefix request env (getCorsHeaders request env).
Proof.
  intros M [-> | ->] P; unfold fetch; cbv zeta; rewrite M, P.
  - change ("/api" ++ rest =? "/health") with false.
    unfold JS.startsWith at 1. rewrite prefix_app. reflexivity.
  - change ("/agent" ++ rest =? "/health") with false.
    change (JS.startsWith ("/agent" ++ rest) "/api") with false.
    change (JS.startsWith ("/agent" ++ rest) "/mcp") with false.
    unfold JS.startsWith. rewrite prefix_app. reflexivity.
Qed.

Lemma agentPath_stripped (prefix rest : string) (request : Request) :
  pathname (url request) = prefix ++ rest ->
  agentRequest prefix request =
  {| a_url := {| agentPath := if rest =? "" then "/status" else rest;
                 base := "http://harness";
                 agentSearch := search (url request) |};
     a_method := method request;
     a_headers := headers request;
     a_body := body request |}.
Proof.
  intros P. unfold agentRequest. rewrite P, replace_prefix. reflexivity.
Qed.

Lemma fetch_mcp (now : string) (request : Request) (env : Env) :
  (method request =? "OPTIONS") = false ->
  JS.startsWith (pathname (url request)) "/mcp" = true ->
  fetch now request env =
  if isAuthorized request env then MCP_AGENT env request else unauthorizedResponse [].
Proof.
  intros M P. pose proof P as P'. apply startsWith_iff in P' as [rest E].
  unfold fetch. cbv zeta. rewrite M, P, E.
  change ("/mcp" ++ rest =? "/health") with false.
  change (JS.startsWith ("/mcp" ++ rest) "/api") with false.
  now destruct (isAuthorized request env).
Qed.

Lemma fetch_assets (now : string) (request : Request) (env : Env) :
  (method request =? "OPTIONS") = false ->
  (pathname (url request) =? "/health") = false ->
  JS.startsWith (pathname (url request)) "/api" = false ->
  JS.startsWith (pathname (url request)) "/mcp" = false ->
  JS.startsWith (pathname (url request)) "/agent" = false ->
  fetch now request env = ASSETS env request.
Proof. unfold fetch. now intros -> -> -> -> ->. Qed.

End Router.


Section Resolution.
Import Worker.











End Resolution.




(** C9.  The response to a proxied request has the status, the status text
    and the body of the actor's reply.  Its headers are the reply's with
    the CORS headers of the inbound request set on top: each CORS header
    reads back with the resolved value, whatever the reply held under that
    name; every other name reads back as in the reply; and the headers of
    other names are the same list, in the same order. *)
Theorem C9_proxied_response_overlay
    (now : string) (request : Worker.Request) (env : Worker.Env) (prefix rest : string) :
  (Worker.method request =? "OPTIONS") = false ->
  prefix = "/api" \/ prefix = "/agent" ->
  Worker.pathname (Worker.url request) = prefix ++ rest ->
  let reply := Worker.HARNESS env (Worker.agentRequest prefix request) in
  let corsHeaders := Worker.getCorsHeaders request env in
  let out := Worker.fetch now request env in
  Worker.status out = Worker.status reply
  /\ Worker.statusText out = Worker.statusText reply
  /\ Worker.r_body out = Worker.r_body reply
  /\ (forall k v, In (k, v) corsHeaders -> Headers.get (Worker.r_headers out) k = Some v)
  /\ (forall name, ~ In (Headers.lower name) (Worker.keys corsHeaders) ->
      Headers.get (Worker.r_headers out) name = Headers.get (Worker.r_headers reply) name)
  /\ filter (fun e => negb (Worker.overlaid corsHeaders e)) (Worker.r_headers out)
     = filter (fun e => negb (Worker.overlaid corsHeaders e)) (Worker.r_headers reply).
Proof.
  intros M Pre P. cbv zeta.
  rewrite (fetch_proxied now request env prefix rest M Pre P).
  unfold Worker.proxy, Headers.copy. cbn [Worker.status Worker.statusText Worker.r_body Worker.r_headers].
  repeat split.
  - intros k v I. apply setAll_same; [apply getCorsHeaders_keys | assumption].
  - intros name NI. now apply setAll_other.
  - apply setAll_keeps_the_rest.
Qed.

(** C9 on an actor reply that carries [access-control-allow-origin: *] and
    two [set-cookie] headers, for a request from a loopback origin. *)
Lemma C9_witness_actor_cors_overridden :
  let request := Fixtures.request "GET" "/agent/foo" "?x=1"
                   [("origin", "http://localhost:5173")] in
  let env := Fixtures.env None None in
  let reply := Worker.HARNESS env (Worker.agentRequest "/agent" request) in
  let corsHeaders := Worker.getCorsHeaders request env in
  let out := Worker.fetch "2026-01-01T00:00:00.000Z" request env in
  Worker.status out = Worker.status reply
  /\ Worker.statusText out = Worker.statusText reply
  /\ Worker.r_body out = Worker.r_body reply
  /\ (forall k v, In (k, v) corsHeaders -> Headers.get (Worker.r_headers out) k = Some v)
  /\ (forall name, ~ In (Headers.lower name) (Worker.keys corsHeaders) ->
      Headers.get (Worker.r_headers out) name = Headers.get (Worker.r_headers reply) name)
  /\ filter (fun e => negb (Worker.overlaid corsHeaders e)) (Worker.r_headers out)
     = filter (fun e => negb (Worker.overlaid corsHeaders e)) (Worker.r_headers reply).
Proof.
  apply (C9_proxied_response_overlay "2026-01-01T00:00:00.000Z"
           (Fixtures.request "GET" "/agent/foo" "?x=1" [("origin", "http://localhost:5173")])
           (Fixtures.env None None) "/agent" "/foo").
  - reflexivity.
  - right; reflexivity.
  - reflexivity.
Defined.

(** The headers of that response, computed: the actor's wildcard is
    replaced by the echoed origin, the cookies stay. *)
Example actor_cors_overridden_headers :
  Worker.r_headers
    (Worker.fetch "2026-01-01T00:00:00.000Z"
       (Fixtures.request "GET" "/agent/foo" "?x=1" [("origin", "http://localhost:5173")])
       (Fixtures.env None None))
  = [("content-type", "text/plain");
     ("access-control-allow-origin", "http://localhost:5173");
     ("set-cookie", "a=1");
     ("set-cookie", "b=2");
     ("access-control-allow-methods", "GET, POST, PUT, DELETE, OPTIONS");
     ("access-control-allow-headers", "Content-Type, Authorization");
     ("access-control-max-age", "86400")].
Proof. reflexivity. Qed.

(** C7, as amended.  A request of any method but OPTIONS to a path that
    starts with [/mcp], for which [isAuthorized] is false, is answered with
    status 401, the single header [content-type: application/json] and the
    body [JSON.stringify] makes of the object whose [error] property is
    "Unauthorized. Requires: Authorization: Bearer <MAHORAGA_API_TOKEN>";
    no CORS header can be read from it.  An OPTIONS request never reaches
    the guard: it gets the 204 preflight response, whose headers are the
    resolved CORS headers.  The router sets CORS headers on top of a
    response only in the [/api] and [/agent] branches: what the MCP mount
    and the asset binding answer is returned as it is. *)
Theorem C7_unauthorized_mcp_is_401
    (now : string) (request : Worker.Request) (env : Worker.Env) :
  (Worker.method request =? "OPTIONS") = false ->
  JS.startsWith (Worker.pathname (Worker.url request)) "/mcp" = true ->
  Worker.isAuthorized request env = false ->
  let quote := String JSON.dquote "" in
  Worker.fetch now request env =
    {| Worker.status := 401;
       Worker.statusText := "";
       Worker.r_headers := [("content-type", "application/json")];
       Worker.r_body :=
         Some ("{" ++ quote ++ "error" ++ quote ++ ":" ++ quote
               ++ "Unauthorized. Requires: Authorization: Bearer <MAHORAGA_API_TOKEN>"
               ++ quote ++ "}") |}
  /\ (forall origin k v, In (k, v) (Worker.allowHeaders origin) ->
      Headers.get (Worker.r_headers (Worker.fetch now request env)) k = None)
  /\ (forall r, (Worker.method r =? "OPTIONS") = true ->
      Worker.fetch now r env =
      {| Worker.status := 204; Worker.statusText := "";
         Worker.r_headers := Headers.of_record (Worker.getCorsHeaders r env);
         Worker.r_body := None |})
  /\ (forall r, (Worker.method r =? "OPTIONS") = false ->
      JS.startsWith (Worker.pathname (Worker.url r)) "/mcp" = true ->
      Worker.isAuthorized r env = true ->
      Worker.fetch now r env = Worker.MCP_AGENT env r)
  /\ (forall r, (Worker.method r =? "OPTIONS") = false ->
      (Worker.pathname (Worker.url r) =? "/health") = false ->
      JS.startsWith (Worker.pathname (Worker.url r)) "/api" = false ->
      JS.startsWith (Worker.pathname (Worker.url r)) "/mcp" = false ->
      JS.startsWith (Worker.pathname (Worker.url r)) "/agent" = false ->
      Worker.fetch now r env = Worker.ASSETS env r).
Proof.
  intros M P A. cbv zeta.
  assert (F : Worker.fetch now request env = Worker.unauthorizedResponse [])
    by (rewrite (fetch_mcp now request env M P), A; reflexivity).
  split; [rewrite F; reflexivity|].
  split.
  { intros origin k v I. rewrite F.
    cbn in I. destruct I as [E|[E|[E|[E|[]]]]]; injection E as <- <-; reflexivity. }
  split; [intros r; apply fetch_options|].
  split.
  { intros r Mr Pr Ar. now rewrite (fetch_mcp now r env Mr Pr), Ar. }
  intros r. apply fetch_assets.
Qed.

(** C7 at [GET /mcp/tools] with no [Authorization] header. *)
Lemma C7_witness_get_mcp_tools :
  let now := "2026-01-01T00:00:00.000Z" in
  let request := Fixtures.request "GET" "/mcp/tools" "" [] in
  let env := Fixtures.env (Some "s3cret") None in
  let quote := String JSON.dquote "" in
  Worker.fetch now request env =
    {| Worker.status := 401;
       Worker.statusText := "";
       Worker.r_headers := [("content-type", "application/json")];
       Worker.r_body :=
         Some ("{" ++ quote ++ "error" ++ quote ++ ":" ++ quote
               ++ "Unauthorized. Requires: Authorization: Bearer <MAHORAGA_API_TOKEN>"
               ++ quote ++ "}") |}
  /\ (forall origin k v, In (k, v) (Worker.allowHeaders origin) ->
      Headers.get (Worker.r_headers (Worker.fetch now request env)) k = None)
  /\ (forall r, (Worker.method r =? "OPTIONS") = true ->
      Worker.fetch now r env =
      {| Worker.status := 204; Worker.statusText := "";
         Worker.r_headers := Headers.of_record (Worker.getCorsHeaders r env);
         Worker.r_body := None |})
  /\ (forall r, (Worker.method r =? "OPTIONS") = false ->
      JS.startsWith (Worker.pathname (Worker.url r)) "/mcp" = true ->
      Worker.isAuthorized r env = true ->
      Worker.fetch now r env = Worker.MCP_AGENT env r)
  /\ (forall r, (Worker.method r =? "OPTIONS") = false ->
      (Worker.pathname (Worker.url r) =? "/health") = false ->
      JS.startsWith (Worker.pathname (Worker.url r)) "/api" = false ->
      JS.startsWith (Worker.pathname (Worker.url r)) "/mcp" = false ->
      JS.startsWith (Worker.pathname (Worker.url r)) "/agent" = false ->
      Worker.fetch now r env = Worker.ASSETS env r).
Proof.
  apply (C7_unauthorized_mcp_is_401 "2026-01-01T00:00:00.000Z"
           (Fixtures.request "GET" "/mcp/tools" "" [])
           (Fixtures.env (Some "s3cret") None)); reflexivity.
Defined.

(** C7, the claim as stated, fails in three places.  An OPTIONS request to
    [/mcp/tools] that fails the guard is answered 204, not 401.  The 401
    body of [GET /mcp/tools] is not the documented object: neither its
    serialization nor the documented text with a space after the colon.
    And a response other than the 401, the health and the preflight ones
    can lack CORS headers: the asset fallback, for an origin the policy
    allows, is returned as the asset binding made it. *)
Lemma C7_counterexample_preflight_body_assets :
  let now := "2026-01-01T00:00:00.000Z" in
  let env := Fixtures.env (Some "s3cret") None in
  let preflight := Fixtures.request "OPTIONS" "/mcp/tools" "" [] in
  let get := Fixtures.request "GET" "/mcp/tools" "" [] in
  let asset := Fixtures.request "GET" "/index.html" ""
                 [("origin", "http://localhost:5173")] in
  let quote := String JSON.dquote "" in
  (JS.startsWith (Worker.pathname (Worker.url preflight)) "/mcp" = true
   /\ Worker.isAuthorized preflight env = false
   /\ Worker.status (Worker.fetch now preflight env) = 204%N)
  /\ (Worker.isAuthorized get env = false
      /\ Worker.status (Worker.fetch now get env) = 401%N
      /\ Worker.r_body (Worker.fetch now get env)
         <> Some (JSON.stringify [("error", Some Spec.documented_message)])
      /\ Worker.r_body (Worker.fetch now get env)
         <> Some ("{" ++ quote ++ "error" ++ quote ++ ": " ++ quote
                  ++ Spec.documented_message ++ quote ++ "}"))
  /\ (Worker.getCorsHeaders asset env = Worker.allowHeaders "http://localhost:5173"
      /\ Worker.fetch now asset env = Worker.ASSETS env asset
      /\ Headers.get (Worker.r_headers (Worker.fetch now asset env))
           "Access-Control-Allow-Origin" = None).
Proof.
  cbv zeta. repeat split; try reflexivity; discriminate.
Qed.

(* ===================================================================== *)
(** ** Facts about the provider *)
(* ===================================================================== *)

Section ProviderFacts.
Import Json Eff Access Provider.

Lemma bind_lift_returned {A B} (a : A) (k : A -> M B) (con : console) :
  bind (lift (Returned a)) k con = k a con.
Proof. reflexivity. Qed.

Lemma bind_lift_thrown {A B} (e : exn) (k : A -> M B) (con : console) :
  bind (lift (Thrown e)) k con = (Thrown e, con).
Proof. reflexivity. Qed.

Lemma bind_print {B} (l : level) (label : string) (k : unit -> M B) (con : console) :
  bind (print l label) k con = k tt (con ++ [(l, label)])%list.
Proof. reflexivity. Qed.

Lemma ok_iff (response : FetchResponse) :
  ok response = false <-> (status response < 200 \/ 299 < status response)%N.
Proof.
  unfold ok. rewrite andb_false_iff, !N.leb_gt. tauto.
Qed.

Lemma getProp_defined (v : jsval) (key : string) (r : jsval) :
  getProp v key = Returned r ->
  exists x, v = Some x /\ x <> Null /\ r = lookup x key.
Proof.
  destruct v as [x|]; [|discriminate].
  destruct x; try discriminate; intros E; injection E as <-;
    eexists; repeat split; discriminate.
Qed.

Lemma getProp_value (x : value) (key : string) :
  x <> Null -> getProp (Some x) key = Returned (lookup x key).
Proof. destruct x; intros H; [now elim H | reflexivity..]. Qed.

Lemma getProp_nullish (v : jsval) (key : string) :
  nullish v = true -> getProp v key = Thrown TypeError.
Proof. destruct v as [[]|]; try discriminate; reflexivity. Qed.

Lemma getIndex_defined (v : jsval) (i : nat) (r : jsval) :
  getIndex v i = Returned r -> exists x, v = Some x /\ x <> Null.
Proof.
  destruct v as [x|]; [|discriminate].
  destruct x; try discriminate; intros _; eexists; split; try reflexivity; discriminate.
Qed.

Lemma optProp_returns (v : jsval) (key : string) :
  exists r, optProp v key = Returned r.
Proof.
  unfold optProp. destruct v as [[]|]; simpl; eexists; reflexivity.
Qed.

(** What a successful read of the first content tells about the envelope. *)
Lemma firstContent_defined (data c : jsval) :
  firstContent data = Returned c ->
  exists d choices choice message,
    data = Some d /\ d <> Null
    /\ lookup d "choices" = Some choices /\ choices <> Null
    /\ firstChoice data = Returned choice
    /\ optProp choice "message" = Returned message
    /\ optProp message "content" = Returned c.
Proof.
  unfold firstContent, firstChoice. intros H.
  destruct (getProp data "choices") as [chs|] eqn:E1; [|discriminate].
  simpl in H.
  destruct (getIndex chs 0) as [choice|] eqn:E2; [|discriminate].
  simpl in H.
  destruct (optProp choice "message") as [message|] eqn:E3; [|discriminate].
  simpl in H.
  apply getProp_defined in E1 as (d & -> & Hd & ->).
  pose proof E2 as E2'. apply getIndex_defined in E2' as (choices & Hc & Hn).
  exists d, choices, choice, message.
  repeat split; assumption.
Qed.

Lemma readUsage_outcome (d : value) :
  d <> Null ->
  ZAI.readUsage (Some d) = ZAI2.readUsage (Some d)
  /\ ZAI2.readUsage (Some d) =
     match lookup d "usage" with
     | None | Some Null => Thrown TypeError
     | Some u => Returned {| prompt_tokens := lookup u "prompt_tokens";
                             completion_tokens := lookup u "completion_tokens";
                             total_tokens := lookup u "total_tokens" |}
     end.
Proof.
  intros Hd. split; [reflexivity|].
  unfold ZAI2.readUsage. rewrite (getProp_value d "usage" Hd). simpl.
  destruct (lookup d "usage") as [u|]; [|reflexivity].
  destruct u; reflexivity.
Qed.

(** The arguments of the response log throw nothing when the first content
    is read as [undefined], [null] or a string. *)
Lemma responseLogArguments_returns (data c : jsval) :
  firstContent data = Returned c ->
  nullish c = true \/ (exists s, c = Some (Str s)) ->
  ZAI.responseLogArguments data = Returned tt.
Proof.
  intros F C.
  destruct (firstContent_defined data c F)
    as (d & choices & choice & message & -> & Hd & L & Hc & FC & _ & _).
  unfold ZAI.responseLogArguments.
  rewrite !F, !(getProp_value d _ Hd), L. cbn [andThen].
  rewrite (getProp_value choices "length" Hc), FC. cbn [andThen].
  destruct (optProp_returns c "length") as [r1 ->].
  destruct (optProp_returns choice "finish_reason") as [r2 ->]. cbn [andThen].
  destruct C as [C | [s ->]].
  - destruct c as [[]|]; try discriminate; reflexivity.
  - reflexivity.
Qed.

Lemma reasoningContent_returns (data c : jsval) :
  firstContent data = Returned c ->
  exists r,
    (choice <- firstChoice data ;;
     message <- optProp choice "message" ;;
     optProp message "reasoning_content")%outcome = Returned r.
Proof.
  intros F.
  destruct (firstContent_defined data c F)
    as (d & choices & choice & message & -> & _ & _ & _ & FC & M & _).
  rewrite FC. simpl. rewrite M. simpl. apply optProp_returns.
Qed.

Lemma isEmptyContent_returns (c : jsval) :
  nullish c = true \/ (exists s, c = Some (Str s)) ->
  exists b, ZAI.isEmptyContent (coalesce c (Str "")) = Returned b.
Proof.
  intros [C | [s ->]].
  - destruct c as [[]|]; try discriminate; eexists; reflexivity.
  - unfold ZAI.isEmptyContent. simpl. destruct (negb (negb (s =? ""))); eexists; reflexivity.
Qed.

Lemma truncatedByLength_returns (data c r : jsval) :
  firstContent data = Returned c ->
  exists b, ZAI.truncatedByLength data r = Returned b.
Proof.
  intros F.
  destruct (firstContent_defined data c F)
    as (d & choices & choice & message & -> & _ & _ & _ & FC & _ & _).
  unfold ZAI.truncatedByLength.
  destruct (truthy r); [|eexists; reflexivity].
  rewrite FC. cbn [andThen].
  destruct (optProp_returns choice "finish_reason") as [f ->]. cbn [andThen].
  eexists; reflexivity.
Qed.

Lemma emptyContentDiagnostics_returns (data c r : jsval) (con : console) :
  firstContent data = Returned c ->
  exists con', ZAI.emptyContentDiagnostics data r con = (Returned tt, con').
Proof.
  intros F. unfold ZAI.emptyContentDiagnostics.
  destruct (truncatedByLength_returns data c r F) as [b ->].
  destruct b; eexists; reflexivity.
Qed.

(** The outcome of the revision without diagnostics on a 2xx response. *)
Lemma handle2_outcome (response : FetchResponse) (d : value) (c : jsval) (con : console) :
  ok response = true ->
  json response = Some d ->
  firstContent (Some d) = Returned c ->
  fst (ZAI2.handle response con) =
  match ZAI2.readUsage (Some d) with
  | Returned u => Returned {| content := coalesce c (Str ""); usage := u |}
  | Thrown e => Thrown e
  end.
Proof.
  intros K J F. unfold ZAI2.handle, Response_json, bind, lift, ret.
  rewrite K, J. simpl. rewrite F.
  destruct (ZAI2.readUsage (Some d)); reflexivity.
Qed.

(** The outcome of the revision with diagnostics on a 2xx response whose
    first content is read as [undefined], [null] or a string. *)
Lemma handle_outcome (response : FetchResponse) (d : value) (c : jsval) (con : console) :
  ok response = true ->
  json response = Some d ->
  firstContent (Some d) = Returned c ->
  nullish c = true \/ (exists s, c = Some (Str s)) ->
  fst (ZAI.handle response con) =
  match ZAI.readUsage (Some d) with
  | Returned u => Returned {| content := coalesce c (Str ""); usage := u |}
  | Thrown e => Thrown e
  end.
Proof.
  intros K J F C. unfold ZAI.handle, Response_json.
  rewrite K, J. cbn [negb].
  rewrite bind_lift_returned. cbv beta zeta.
  rewrite (responseLogArguments_returns _ _ F C).
  rewrite bind_lift_returned, bind_print, F, bind_lift_returned. cbv beta zeta.
  destruct (reasoningContent_returns _ _ F) as [r ->].
  rewrite bind_lift_returned.
  destruct (isEmptyContent_returns c C) as [b ->].
  rewrite bind_lift_returned.
  assert (D : exists con',
             (if b then ZAI.emptyContentDiagnostics (Some d) r else ret tt)
               (con ++ [(Log, "[Z.AI] Response:")])%list = (Returned tt, con')).
  { destruct b; [now apply emptyContentDiagnostics_returns with (c := c)|].
    eexists; reflexivity. }
  destruct D as [con' D].
  unfold bind at 1. rewrite D.
  unfold bind, lift, ret.
  destruct (ZAI.readUsage (Some d)); reflexivity.
Qed.

End ProviderFacts.

Section Completion.
Import Json Eff Access Provider.

(** [complete] issues one call, [chatCall], and depends on [fetch] through
    the answer to that call only. *)
Lemma complete_calls_once (this : ZAI.ZAIProvider) (params : CompletionParams)
    (f g : FetchCall -> outcome FetchResponse) :
  f (ZAI.chatCall this params) = g (ZAI.chatCall this params) ->
  ZAI.complete this f params = ZAI.complete this g params.
Proof. intros H. unfold ZAI.complete. now rewrite H. Qed.

Lemma complete2_calls_once (this : ZAI2.ZAIProvider) (params : CompletionParams)
    (f g : FetchCall -> outcome FetchResponse) :
  f (ZAI2.chatCall this params) = g (ZAI2.chatCall this params) ->
  ZAI2.complete this f params = ZAI2.complete this g params.
Proof. intros H. unfold ZAI2.complete. now rewrite H. Qed.

Lemma complete_result (this : ZAI.ZAIProvider) (params : CompletionParams)
    (response : FetchResponse) :
  result (ZAI.complete this (respond response) params)
  = fst (ZAI.handle response [(Log, "[Z.AI] Request:")]).
Proof. reflexivity. Qed.

Lemma complete2_result (this : ZAI2.ZAIProvider) (params : CompletionParams)
    (response : FetchResponse) :
  result (ZAI2.complete this (respond response) params) = fst (ZAI2.handle response []).
Proof. reflexivity. Qed.

Lemma fragment_nonempty (a fragment b : string) :
  fragment <> "" -> (a ++ fragment ++ b =? "") = false.
Proof.
  intros NE. apply String.eqb_neq. intros H.
  apply (f_equal String.length) in H. rewrite !append_length in H.
  destruct fragment; [now elim NE | simpl in H; lia].
Qed.

Lemma isNonZAIModel_fragment (a fragment b : string) :
  JS.toLowerCase fragment = "gpt" \/ JS.toLowerCase fragment = "claude"
  \/ JS.toLowerCase fragment = "gemini" ->
  ZAI.isNonZAIModel (JS.toLowerCase (a ++ fragment ++ b)) = true.
Proof.
  intros H. unfold ZAI.isNonZAIModel. rewrite !toLowerCase_app.
  destruct H as [-> | [-> | ->]]; rewrite includes_app;
    rewrite ?orb_true_r; reflexivity.
Qed.

(** Reading back the numeral that [Number::toString] prints gives the
    number. *)
Lemma decimal_Number_toString (n : N) : Spec.decimal (JS.Number_toString n) = Some n.
Proof.
  unfold Spec.decimal, JS.Number_toString.
  rewrite NilZero.usu.
  - simpl. now rewrite DecimalN.Unsigned.of_to.
  - destruct n; [discriminate | apply DecimalPos.Unsigned.to_uint_nonnil].
Qed.

End Completion.

(** C3, as amended.  In the revision that has [normalizeModel], the model
    sent is the adapter's own model when the caller's string, lower-cased,
    includes [gpt], [claude] or [gemini] (so in any letter case), and also
    when the caller gives no model or the empty string; every other string
    is sent unchanged: [gpt-4] becomes the adapter's model, [custom-llm-7]
    stays.  The other revision sends whatever string the caller gives. *)
Theorem C3_model_sent
    (this : ZAI.ZAIProvider) (this2 : ZAI2.ZAIProvider) (params : Provider.CompletionParams) :
  let sent := Provider.model (Provider.f_body (ZAI.chatCall this params)) in
  let sent2 := Provider.model (Provider.f_body (ZAI2.chatCall this2 params)) in
  (forall f g, f (ZAI.chatCall this params) = g (ZAI.chatCall this params) ->
      ZAI.complete this f params = ZAI.complete this g params)
  /\ (forall m, Provider.p_model params = Some m -> m <> "" ->
      sent = if ZAI.isNonZAIModel (JS.toLowerCase m) then ZAI.this_model this else m)
  /\ (forall a fragment b,
      Provider.p_model params = Some (a ++ fragment ++ b) ->
      JS.toLowerCase fragment = "gpt" \/ JS.toLowerCase fragment = "claude"
      \/ JS.toLowerCase fragment = "gemini" ->
      sent = ZAI.this_model this)
  /\ (Provider.p_model params = None \/ Provider.p_model params = Some "" ->
      sent = ZAI.this_model this)
  /\ (Provider.p_model params = Some "gpt-4" -> sent = ZAI.this_model this)
  /\ (Provider.p_model params = Some "custom-llm-7" -> sent = "custom-llm-7")
  /\ (forall m, Provider.p_model params = Some m -> sent2 = m)
  /\ (Provider.p_model params = None -> sent2 = ZAI2.this_model this2).
Proof.
  cbv zeta. unfold ZAI.chatCall, ZAI2.chatCall, ZAI.chatBody, ZAI2.chatBody. cbn.
  split; [intros f g; apply complete_calls_once|].
  split.
  { intros m -> NE. unfold ZAI.normalizeModel.
    apply String.eqb_neq in NE. now rewrite NE. }
  split.
  { intros a fragment b -> F. unfold ZAI.normalizeModel.
    rewrite fragment_nonempty, isNonZAIModel_fragment; try assumption; try reflexivity.
    intros E. rewrite E in F. cbn in F. destruct F as [F|[F|F]]; discriminate. }
  split; [intros [-> | ->]; reflexivity|].
  split; [intros ->; reflexivity|].
  split; [intros ->; reflexivity|].
  split; [intros m ->; reflexivity | intros ->; reflexivity].
Qed.

(** C3, the claim as stated, fails in both revisions.  With
    [normalizeModel], the caller's empty string, which contains none of the
    fragments, is not forwarded: the default [GLM-4.7] is sent.  Without
    it, [gpt-4] is sent as [gpt-4], not as the default. *)
Lemma C3_counterexample_empty_and_unnormalized :
  (ZAI.isNonZAIModel (JS.toLowerCase "") = false
   /\ Provider.model (Provider.f_body (ZAI.chatCall Fixtures.zai (Fixtures.ask (Some ""))))
      = "GLM-4.7")
  /\ (ZAI.isNonZAIModel (JS.toLowerCase "gpt-4") = true
      /\ ZAI2.this_model Fixtures.zai2 = "GLM-4.7"
      /\ Provider.model (Provider.f_body (ZAI2.chatCall Fixtures.zai2 (Fixtures.ask (Some "gpt-4"))))
         = "gpt-4").
Proof. repeat split. Qed.

(** The repository's test of a model given in the parameters expects
    [zai-gpt-4] to be sent by a provider whose model is [zai-default]: the
    revision without [normalizeModel] does that, the other one sends
    [zai-default]. *)
Example test_uses_custom_model :
  Provider.model (Provider.f_body
                    (ZAI2.chatCall Fixtures.zai2Default (Fixtures.ask (Some "zai-gpt-4"))))
  = "zai-gpt-4"
  /\ Provider.model (Provider.f_body
                       (ZAI.chatCall Fixtures.zaiDefault (Fixtures.ask (Some "zai-gpt-4"))))
     = "zai-default".
Proof. split; reflexivity. Qed.

(** The fragments are found in any letter case. *)
Example mixed_case_fragments :
  Provider.model (Provider.f_body (ZAI.chatCall Fixtures.zaiDefault (Fixtures.ask (Some "GPT-4o"))))
  = "zai-default"
  /\ Provider.model
       (Provider.f_body (ZAI.chatCall Fixtures.zaiDefault (Fixtures.ask (Some "my-Claude-3"))))
     = "zai-default"
  /\ Provider.model
       (Provider.f_body (ZAI.chatCall Fixtures.zaiDefault (Fixtures.ask (Some "GeMiNi-pro"))))
     = "zai-default"
  /\ Provider.model
       (Provider.f_body (ZAI.chatCall Fixtures.zaiDefault (Fixtures.ask (Some "GLM-4.6"))))
     = "GLM-4.6".
Proof. repeat split. Qed.

(** C4.  When the backend answers with a status outside 200..299, both
    revisions of [complete] throw and return nothing, and what they throw
    is the [PROVIDER_ERROR] that [createError] makes of the message
    "Z.AI API error (", the status in decimal, "): " and the text of the
    response body.  The status is printed as the decimal numeral that
    denotes it, and the message includes that numeral and the body text:
    for the status 500 and the body [boom] the message is
    [Z.AI API error (500): boom], which includes [500] and [boom]. *)
Theorem C4_non_2xx_is_provider_error
    (this : ZAI.ZAIProvider) (this2 : ZAI2.ZAIProvider) (params : Provider.CompletionParams)
    (response : Provider.FetchResponse) :
  (Provider.status response < 200 \/ 299 < Provider.status response)%N ->
  let msg := "Z.AI API error (" ++ JS.Number_toString (Provider.status response)
             ++ "): " ++ Provider.text response in
  let thrown := Eff.Thrown (Eff.App (Eff.createError Eff.PROVIDER_ERROR msg)) in
  Provider.ok response = false
  /\ Eff.result (ZAI.complete this (Provider.respond response) params) = thrown
  /\ Eff.result (ZAI2.complete this2 (Provider.respond response) params) = thrown
  /\ Eff.code (Eff.createError Eff.PROVIDER_ERROR msg) = Eff.PROVIDER_ERROR
  /\ Eff.message (Eff.createError Eff.PROVIDER_ERROR msg) = msg
  /\ Spec.decimal (JS.Number_toString (Provider.status response))
     = Some (Provider.status response)
  /\ JS.includes msg (JS.Number_toString (Provider.status response)) = true
  /\ JS.includes msg (Provider.text response) = true
  /\ (Provider.status response = 500%N -> Provider.text response = "boom" ->
      msg = "Z.AI API error (500): boom"
      /\ JS.includes msg "500" = true
      /\ JS.includes msg "boom" = true).
Proof.
  intros S. apply ok_iff in S. cbv zeta.
  split; [assumption|].
  split.
  { rewrite complete_result. unfold ZAI.handle. rewrite S. reflexivity. }
  split.
  { rewrite complete2_result. unfold ZAI2.handle. rewrite S. reflexivity. }
  split; [reflexivity|].
  split; [reflexivity|].
  split; [apply decimal_Number_toString|].
  split; [apply includes_app|].
  split.
  - rewrite !append_associative. apply includes_suffix.
  - intros -> ->. repeat split.
Qed.

(** C4 at status 500 with body [boom]: the message is
    [Z.AI API error (500): boom], which includes [500] and [boom]. *)
Lemma C4_witness_500_boom :
  let response := Fixtures.reply 500 "boom" None in
  let params := Fixtures.ask None in
  let thrown :=
    Eff.Thrown (Eff.App (Eff.createError Eff.PROVIDER_ERROR "Z.AI API error (500): boom")) in
  Provider.ok response = false
  /\ Eff.result (ZAI.complete Fixtures.zai (Provider.respond response) params) = thrown
  /\ Eff.result (ZAI2.complete Fixtures.zai2 (Provider.respond response) params) = thrown
  /\ Eff.message (Eff.createError Eff.PROVIDER_ERROR "Z.AI API error (500): boom")
     = "Z.AI API error (500): boom"
  /\ JS.Number_toString 500 = "500"
  /\ Spec.decimal "500" = Some 500%N
  /\ JS.includes "Z.AI API error (500): boom" "500" = true
  /\ JS.includes "Z.AI API error (500): boom" "boom" = true.
Proof.
  cbv zeta.
  destruct (C4_non_2xx_is_provider_error Fixtures.zai Fixtures.zai2 (Fixtures.ask None)
              (Fixtures.reply 500 "boom" None) (or_intror eq_refl))
    as (H1 & H2 & H3 & _ & H5 & H6 & H7 & H8 & _).
  split; [exact H1|]. split; [exact H2|]. split; [exact H3|]. split; [exact H5|].
  split; [reflexivity|]. split; [exact H6|]. split; [exact H7 | exact H8].
Defined.

Example message_500_boom :
  "Z.AI API error (" ++ JS.Number_toString 500 ++ "): " ++ "boom" = "Z.AI API error (500): boom"
  /\ JS.includes "Z.AI API error (500): boom" "500" = true
  /\ JS.includes "Z.AI API error (500): boom" "boom" = true.
Proof. repeat split. Qed.

(** C5, as amended.  On a 2xx response whose decoded envelope has a usage
    that is neither absent nor [null], when [choices[0]?.message?.content]
    reads as [undefined] or [null] (the content is missing at some level,
    or the choices array is empty), both revisions of [complete] return a
    result whose content is the empty string and whose counters are the
    three properties of the usage, and throw nothing.  When the body is not
    JSON, [complete] throws the SyntaxError of the decoder, which is not a
    provider error. *)
Theorem C5_missing_content_returns_empty
    (this : ZAI.ZAIProvider) (this2 : ZAI2.ZAIProvider) (params : Provider.CompletionParams)
    (response : Provider.FetchResponse) (d u : Json.value) (c : Json.jsval) :
  Provider.ok response = true ->
  Provider.json response = Some d ->
  Access.firstContent (Some d) = Eff.Returned c ->
  Json.nullish c = true ->
  Access.lookup d "usage" = Some u ->
  u <> Json.Null ->
  let returned :=
    Eff.Returned
      {| Provider.content := Json.Str "";
         Provider.usage :=
           {| Provider.prompt_tokens := Access.lookup u "prompt_tokens";
              Provider.completion_tokens := Access.lookup u "completion_tokens";
              Provider.total_tokens := Access.lookup u "total_tokens" |} |} in
  Eff.result (ZAI.complete this (Provider.respond response) params) = returned
  /\ Eff.result (ZAI2.complete this2 (Provider.respond response) params) = returned
  /\ (forall r, Provider.ok r = true -> Provider.json r = None ->
      Eff.result (ZAI.complete this (Provider.respond r) params) = Eff.Thrown Eff.SyntaxError
      /\ Eff.result (ZAI2.complete this2 (Provider.respond r) params)
         = Eff.Thrown Eff.SyntaxError).
Proof.
  intros K J F C U NU. cbv zeta.
  destruct (firstContent_defined _ _ F) as (d' & _ & _ & _ & E & Hd & _).
  injection E as <-.
  destruct (readUsage_outcome d Hd) as [R1 R2]. rewrite U in R2.
  assert (CE : Json.coalesce c (Json.Str "") = Json.Str "")
    by (destruct c as [[]|]; try discriminate; reflexivity).
  split; [|split].
  - rewrite complete_result, (handle_outcome response d c _ K J F (or_introl C)).
    rewrite R1, R2, CE. destruct u; try reflexivity. now elim NU.
  - rewrite complete2_result, (handle2_outcome response d c _ K J F).
    rewrite R2, CE. destruct u; try reflexivity. now elim NU.
  - intros r Kr Jr. split.
    + rewrite complete_result. unfold ZAI.handle, Provider.Response_json.
      rewrite Kr, Jr. reflexivity.
    + rewrite complete2_result. unfold ZAI2.handle, Provider.Response_json.
      rewrite Kr, Jr. reflexivity.
Qed.

(** C5 at an envelope whose choices array is empty. *)
Lemma C5_witness_empty_choices :
  let response := Fixtures.reply 200 "" (Some Fixtures.noChoices) in
  let params := Fixtures.ask None in
  let returned :=
    Eff.Returned
      {| Provider.content := Json.Str "";
         Provider.usage :=
           {| Provider.prompt_tokens := Access.lookup Fixtures.counters "prompt_tokens";
              Provider.completion_tokens := Access.lookup Fixtures.counters "completion_tokens";
              Provider.total_tokens := Access.lookup Fixtures.counters "total_tokens" |} |} in
  Eff.result (ZAI.complete Fixtures.zai (Provider.respond response) params) = returned
  /\ Eff.result (ZAI2.complete Fixtures.zai2 (Provider.respond response) params) = returned
  /\ (forall r, Provider.ok r = true -> Provider.json r = None ->
      Eff.result (ZAI.complete Fixtures.zai (Provider.respond r) params)
      = Eff.Thrown Eff.SyntaxError
      /\ Eff.result (ZAI2.complete Fixtures.zai2 (Provider.respond r) params)
         = Eff.Thrown Eff.SyntaxError).
Proof.
  apply (C5_missing_content_returns_empty Fixtures.zai Fixtures.zai2 (Fixtures.ask None)
           (Fixtures.reply 200 "" (Some Fixtures.noChoices))
           Fixtures.noChoices Fixtures.counters None);
    try reflexivity; discriminate.
Defined.

(** The envelope of the repository's test of an empty content: the content
    returned is the empty string. *)
Example test_handles_empty_content :
  Eff.result (ZAI.complete Fixtures.zai
                (Provider.respond (Fixtures.reply 200 "" (Some Fixtures.noContent)))
                (Fixtures.ask None))
  = Eff.Returned
      {| Provider.content := Json.Str "";
         Provider.usage :=
           {| Provider.prompt_tokens := Some (Json.Number (10 # 1));
              Provider.completion_tokens := Some (Json.Number (0 # 1));
              Provider.total_tokens := Some (Json.Number (10 # 1)) |} |}.
Proof. reflexivity. Qed.

(** C5, the claim as stated, fails on both sides.  An envelope whose
    choices array is empty makes [complete] return a result with content
    the empty string: no provider error is thrown.  And the envelope
    [{ choices: [{ message: {} }] }], whose message lacks a content, makes
    [complete] throw a TypeError, because it has no usage. *)
Lemma C5_counterexample_empty_choices_returns :
  let params := Fixtures.ask None in
  let empty := Provider.respond (Fixtures.reply 200 "" (Some Fixtures.noChoices)) in
  let bare := Provider.respond (Fixtures.reply 200 "" (Some Fixtures.bareMessage)) in
  (Access.lookup Fixtures.noChoices "choices" = Some (Json.Array [])
   /\ (exists r, Eff.result (ZAI.complete Fixtures.zai empty params) = Eff.Returned r
                 /\ Provider.content r = Json.Str "")
   /\ (exists r, Eff.result (ZAI2.complete Fixtures.zai2 empty params) = Eff.Returned r
                 /\ Provider.content r = Json.Str ""))
  /\ (Access.firstContent (Some Fixtures.bareMessage) = Eff.Returned None
      /\ Eff.result (ZAI.complete Fixtures.zai bare params) = Eff.Thrown Eff.TypeError
      /\ Eff.result (ZAI2.complete Fixtures.zai2 bare params) = Eff.Thrown Eff.TypeError).
Proof.
  cbv zeta. repeat split; eexists; split; reflexivity.
Qed.

(** C6, as amended.  On a 2xx response whose first content reads as
    [undefined], [null] or a string: when the decoded envelope has no
    usage, or a [null] one, both revisions of [complete] throw a TypeError
    and return nothing; when it has a usage, they return, and each counter
    of the result is the property of that name of the usage, [undefined]
    when the usage lacks it. *)
Theorem C6_missing_usage_is_a_type_error
    (this : ZAI.ZAIProvider) (this2 : ZAI2.ZAIProvider) (params : Provider.CompletionParams)
    (response : Provider.FetchResponse) (d : Json.value) (c : Json.jsval) :
  Provider.ok response = true ->
  Provider.json response = Some d ->
  Access.firstContent (Some d) = Eff.Returned c ->
  Json.nullish c = true \/ (exists s, c = Some (Json.Str s)) ->
  let outcome :=
    match Access.lookup d "usage" with
    | None | Some Json.Null => Eff.Thrown Eff.TypeError
    | Some u =>
        Eff.Returned
          {| Provider.content := Json.coalesce c (Json.Str "");
             Provider.usage :=
               {| Provider.prompt_tokens := Access.lookup u "prompt_tokens";
                  Provider.completion_tokens := Access.lookup u "completion_tokens";
                  Provider.total_tokens := Access.lookup u "total_tokens" |} |}
    end in
  Eff.result (ZAI.complete this (Provider.respond response) params) = outcome
  /\ Eff.result (ZAI2.complete this2 (Provider.respond response) params) = outcome
  /\ (Json.nullish (Access.lookup d "usage") = true -> outcome = Eff.Thrown Eff.TypeError).
Proof.
  intros K J F C. cbv zeta.
  destruct (firstContent_defined _ _ F) as (d' & _ & _ & _ & E & Hd & _).
  injection E as <-.
  destruct (readUsage_outcome d Hd) as [R1 R2].
  split; [|split].
  - rewrite complete_result, (handle_outcome response d c _ K J F C), R1, R2.
    destruct (Access.lookup d "usage") as [[]|]; reflexivity.
  - rewrite complete2_result, (handle2_outcome response d c _ K J F), R2.
    destruct (Access.lookup d "usage") as [[]|]; reflexivity.
  - destruct (Access.lookup d "usage") as [[]|]; try discriminate; reflexivity.
Qed.

(** C6 at the envelope [{ choices: [{ message: { content: "hi" } }] }],
    which has no usage. *)
Lemma C6_witness_no_usage :
  let response := Fixtures.reply 200 "" (Some Fixtures.noUsage) in
  let params := Fixtures.ask None in
  let outcome :=
    match Access.lookup Fixtures.noUsage "usage" with
    | None | Some Json.Null => Eff.Thrown Eff.TypeError
    | Some u =>
        Eff.Returned
          {| Provider.content := Json.coalesce (Some (Json.Str "hi")) (Json.Str "");
             Provider.usage :=
               {| Provider.prompt_tokens := Access.lookup u "prompt_tokens";
                  Provider.completion_tokens := Access.lookup u "completion_tokens";
                  Provider.total_tokens := Access.lookup u "total_tokens" |} |}
    end in
  Eff.result (ZAI.complete Fixtures.zai (Provider.respond response) params) = outcome
  /\ Eff.result (ZAI2.complete Fixtures.zai2 (Provider.respond response) params) = outcome
  /\ (Json.nullish (Access.lookup Fixtures.noUsage "usage") = true ->
      outcome = Eff.Thrown Eff.TypeError).
Proof.
  apply (C6_missing_usage_is_a_type_error Fixtures.zai Fixtures.zai2 (Fixtures.ask None)
           (Fixtures.reply 200 "" (Some Fixtures.noUsage))
           Fixtures.noUsage (Some (Json.Str "hi"))).
  - reflexivity.
  - reflexivity.
  - reflexivity.
  - right. exists "hi". reflexivity.
Defined.

(** C6, the claim as stated, fails: a status-200 response whose envelope
    has a content and no usage makes both revisions of [complete] throw a
    TypeError.  With an empty usage object they return, with counters that
    are [undefined]. *)
Lemma C6_counterexample_no_usage_throws :
  let params := Fixtures.ask None in
  let missing := Provider.respond (Fixtures.reply 200 "" (Some Fixtures.noUsage)) in
  let empty := Provider.respond (Fixtures.reply 200 "" (Some Fixtures.emptyUsage)) in
  Provider.ok (Fixtures.reply 200 "" (Some Fixtures.noUsage)) = true
  /\ Access.lookup Fixtures.noUsage "usage" = None
  /\ Eff.result (ZAI.complete Fixtures.zai missing params) = Eff.Thrown Eff.TypeError
  /\ Eff.result (ZAI2.complete Fixtures.zai2 missing params) = Eff.Thrown Eff.TypeError
  /\ Eff.result (ZAI.complete Fixtures.zai empty params)
     = Eff.Returned {| Provider.content := Json.Str "hi";
                       Provider.usage := {| Provider.prompt_tokens := None;
                                            Provider.completion_tokens := None;
                                            Provider.total_tokens := None |} |}.
Proof. cbv zeta. repeat split. Qed.

(* ===================================================================== *)
(** ** Further properties of the router *)
(* ===================================================================== *)

Section RouterMore.
Import Worker.

Lemma response_eta (r : Response) :
  {| status := status r; statusText := statusText r;
     r_headers := r_headers r; r_body := r_body r |} = r.
Proof. now destruct r. Qed.

Lemma withPath_same (request : Request) :
  Vary.withPath request (pathname (url request)) = request.
Proof. destruct request as [m [p q] h b]. reflexivity. Qed.

Lemma getCorsHeaders_depends (r1 r2 : Request) (env1 env2 : Env) :
  Headers.get (headers r1) "Origin" = Headers.get (headers r2) "Origin" ->
  CORS_ALLOWED_ORIGINS env1 = CORS_ALLOWED_ORIGINS env2 ->
  getCorsHeaders r1 env1 = getCorsHeaders r2 env2.
Proof.
  intros O L. unfold getCorsHeaders, requestOrigin, allowedOrigins. now rewrite O, L.
Qed.

Lemma values_allowHeaders (origin k v : string) :
  In (k, v) (allowHeaders origin) ->
  Headers.values (Headers.of_record (allowHeaders origin)) k = [v].
Proof.
  intros I. cbn in I.
  destruct I as [E|[E|[E|[E|[]]]]]; injection E as <- <-; reflexivity.
Qed.

Lemma health_suffix (rest : string) :
  rest <> "" -> ("/health" ++ rest =? "/health") = false.
Proof.
  intros NE. apply String.eqb_neq. intros H.
  apply (f_equal String.length) in H. rewrite append_length in H.
  destruct rest; [now elim NE | simpl in H; lia].
Qed.

Lemma set_length (h : Headers.t) (name value : string) :
  List.length (Headers.set h name value) <= S (List.length h).
Proof.
  induction h as [|e r IH]; simpl; [lia|].
  destruct (Headers.named name e); simpl.
  - pose proof (filter_length_le (fun x => negb (Headers.named name x)) r). lia.
  - lia.
Qed.

Lemma setAll_length (corsHeaders : list (string * string)) (h : Headers.t) :
  List.length (setAll h corsHeaders) <= List.length h + List.length corsHeaders.
Proof.
  unfold setAll. revert h. induction corsHeaders as [|kv r IH]; intros h; simpl; [lia|].
  specialize (IH (Headers.set h (fst kv) (snd kv))).
  pose proof (set_length h (fst kv) (snd kv)). lia.
Qed.

Lemma setAll_values (corsHeaders : list (string * string)) (h : Headers.t) (k v : string) :
  NoDup (keys corsHeaders) -> In (k, v) corsHeaders ->
  Headers.values (setAll h corsHeaders) k = [v].
Proof.
  revert h. induction corsHeaders as [|kv r IH]; intros h ND I; [destruct I|].
  simpl in ND. inversion ND as [|x l NI ND']; subst.
  destruct I as [->|I].
  - change (setAll h ((k, v) :: r)) with (setAll (Headers.set h k v) r).
    unfold Headers.values. rewrite setAll_frame.
    + apply values_set.
    + intros kv e Ik N. apply named_other with (name := fst kv); [|assumption].
      intros E. apply NI. simpl. rewrite E.
      now apply in_map with (f := fun kv => Headers.lower (fst kv)).
  - change (setAll h (kv :: r)) with (setAll (Headers.set h (fst kv) (snd kv)) r).
    now apply IH.
Qed.

End RouterMore.

(** X1.  The answer to an OPTIONS request is decided by the [Origin] header
    and the allow-list alone: two OPTIONS requests with the same origin,
    under environments with the same allow-list, get the same response,
    whatever their paths, bodies and other headers, whatever the secret and
    the bindings.  It has status 204 and no body; it has no header at all
    when the origin is rejected, and each of the four CORS headers exactly
    once when it is allowed. *)
Theorem X1_preflight_decided_by_origin
    (now1 now2 : string) (r1 r2 : Worker.Request) (env1 env2 : Worker.Env) :
  Worker.method r1 = "OPTIONS" ->
  Worker.method r2 = "OPTIONS" ->
  Headers.get (Worker.headers r1) "Origin" = Headers.get (Worker.headers r2) "Origin" ->
  Worker.CORS_ALLOWED_ORIGINS env1 = Worker.CORS_ALLOWED_ORIGINS env2 ->
  Worker.fetch now1 r1 env1 = Worker.fetch now2 r2 env2
  /\ Worker.status (Worker.fetch now1 r1 env1) = 204%N
  /\ Worker.r_body (Worker.fetch now1 r1 env1) = None
  /\ (Worker.allowed r1 env1 = false -> Worker.r_headers (Worker.fetch now1 r1 env1) = [])
  /\ (Worker.allowed r1 env1 = true ->
      forall k v, In (k, v) (Worker.allowHeaders (Worker.requestOrigin r1)) ->
      Headers.values (Worker.r_headers (Worker.fetch now1 r1 env1)) k = [v]).
Proof.
  intros M1 M2 O L.
  assert (E1 : (Worker.method r1 =? "OPTIONS") = true) by (rewrite M1; reflexivity).
  assert (E2 : (Worker.method r2 =? "OPTIONS") = true) by (rewrite M2; reflexivity).
  rewrite (fetch_options now1 r1 env1 E1), (fetch_options now2 r2 env2 E2).
  rewrite (getCorsHeaders_depends r1 r2 env1 env2 O L).
  repeat split.
  - intros A. rewrite <- (getCorsHeaders_depends r1 r2 env1 env2 O L).
    now rewrite (getCorsHeaders_rejected r1 env1 A).
  - intros A k v I. rewrite <- (getCorsHeaders_depends r1 r2 env1 env2 O L).
    rewrite (getCorsHeaders_allowed r1 env1 A). cbn [Worker.r_headers].
    now apply values_allowHeaders.
Qed.

(** X1 on [OPTIONS /api/anything] and [OPTIONS /mcp/tools] from the origin
    [http://localhost:5173], with and without a secret. *)
Lemma X1_witness_two_preflights :
  let r1 := Fixtures.request "OPTIONS" "/api/anything" ""
              [("origin", "http://localhost:5173")] in
  let r2 := Fixtures.request "OPTIONS" "/mcp/tools" "?x=1"
              [("Origin", "http://localhost:5173"); ("authorization", "Bearer wrong")] in
  let env1 := Fixtures.env (Some "s3cret") None in
  let env2 := Vary.doubledEnv in
  Worker.fetch "t1" r1 env1 = Worker.fetch "t2" r2 env2
  /\ Worker.status (Worker.fetch "t1" r1 env1) = 204%N
  /\ Worker.r_body (Worker.fetch "t1" r1 env1) = None
  /\ (Worker.allowed r1 env1 = false -> Worker.r_headers (Worker.fetch "t1" r1 env1) = [])
  /\ (Worker.allowed r1 env1 = true ->
      forall k v, In (k, v) (Worker.allowHeaders (Worker.requestOrigin r1)) ->
      Headers.values (Worker.r_headers (Worker.fetch "t1" r1 env1)) k = [v]).
Proof.
  apply (X1_preflight_decided_by_origin "t1" "t2"
           (Fixtures.request "OPTIONS" "/api/anything" "" [("origin", "http://localhost:5173")])
           (Fixtures.request "OPTIONS" "/mcp/tools" "?x=1"
              [("Origin", "http://localhost:5173"); ("authorization", "Bearer wrong")])
           (Fixtures.env (Some "s3cret") None) Vary.doubledEnv); reflexivity.
Defined.

(** X2.  The health check is the exact path [/health]: a request of any
    method but OPTIONS to it gets status 200, the single header
    [content-type: application/json] and the serialized object of [status]
    "ok", [timestamp] and, when the environment tag is defined,
    [environment]; neither the origin nor the secret nor any binding has a
    part in it.  A longer path that starts with [/health] is not the health
    check: it is handed to the asset binding. *)
Theorem X2_health_is_an_exact_path
    (now : string) (request : Worker.Request) (env : Worker.Env) (rest : string) :
  (Worker.method request =? "OPTIONS") = false ->
  Worker.pathname (Worker.url request) = "/health" ++ rest ->
  (rest = "" ->
   Worker.fetch now request env =
   {| Worker.status := 200; Worker.statusText := "";
      Worker.r_headers := [("content-type", "application/json")];
      Worker.r_body :=
        Some ("{" ++ JSON.quote "status" ++ ":" ++ JSON.quote "ok" ++ ","
              ++ JSON.quote "timestamp" ++ ":" ++ JSON.quote now
              ++ match Worker.ENVIRONMENT env with
                 | Some tag => "," ++ JSON.quote "environment" ++ ":" ++ JSON.quote tag
                 | None => ""
                 end ++ "}") |})
  /\ (rest <> "" -> Worker.fetch now request env = Worker.ASSETS env request).
Proof.
  intros M P. split.
  - intros ->. unfold Worker.fetch. cbv zeta. rewrite M, P.
    change ("/health" ++ "" =? "/health") with true. cbv iota.
    f_equal. f_equal. unfold JSON.stringify. cbn [JSON.members JS.join].
    destruct (Worker.ENVIRONMENT env) as [tag|]; cbn [JSON.members JS.join];
      rewrite <- ?append_associative; reflexivity.
  - intros NE. apply fetch_assets; try assumption; rewrite P.
    + now apply health_suffix.
    + reflexivity.
    + reflexivity.
    + reflexivity.
Qed.

(** X2 at [GET /health] from an allowed origin, with a bearer header. *)
Lemma X2_witness_get_health :
  let now := "2026-01-01T00:00:00.000Z" in
  let request := Fixtures.request "GET" "/health" ""
                   [("origin", "http://localhost:5173"); ("authorization", "Bearer x")] in
  let env := Fixtures.env (Some "s3cret") None in
  ("" = "" ->
   Worker.fetch now request env =
   {| Worker.status := 200; Worker.statusText := "";
      Worker.r_headers := [("content-type", "application/json")];
      Worker.r_body :=
        Some ("{" ++ JSON.quote "status" ++ ":" ++ JSON.quote "ok" ++ ","
              ++ JSON.quote "timestamp" ++ ":" ++ JSON.quote now
              ++ match Worker.ENVIRONMENT env with
                 | Some tag => "," ++ JSON.quote "environment" ++ ":" ++ JSON.quote tag
                 | None => ""
                 end ++ "}") |})
  /\ ("" <> "" -> Worker.fetch now request env = Worker.ASSETS env request).
Proof.
  apply (X2_health_is_an_exact_path "2026-01-01T00:00:00.000Z"
           (Fixtures.request "GET" "/health" ""
              [("origin", "http://localhost:5173"); ("authorization", "Bearer x")])
           (Fixtures.env (Some "s3cret") None) ""); reflexivity.
Defined.

(** X3.  The MCP mount is reached by authorized requests only: when the
    guard rejects a request, or the request is an OPTIONS one, or its path
    does not start with [/mcp], the response is the same whatever mount is
    bound. *)
Theorem X3_mount_only_behind_the_guard
    (now : string) (request : Worker.Request) (env : Worker.Env)
    (mount : Worker.Request -> Worker.Response) :
  Worker.isAuthorized request env = false
  \/ Worker.method request = "OPTIONS"
  \/ JS.startsWith (Worker.pathname (Worker.url request)) "/mcp" = false ->
  Worker.fetch now request (Vary.withMcp env mount) = Worker.fetch now request env.
Proof.
  intros H. unfold Worker.fetch. cbv zeta.
  change (Worker.getCorsHeaders request (Vary.withMcp env mount))
    with (Worker.getCorsHeaders request env).
  change (Worker.isAuthorized request (Vary.withMcp env mount))
    with (Worker.isAuthorized request env).
  destruct (Worker.method request =? "OPTIONS") eqn:M; [reflexivity|].
  destruct (Worker.pathname (Worker.url request) =? "/health"); [reflexivity|].
  destruct (JS.startsWith (Worker.pathname (Worker.url request)) "/api"); [reflexivity|].
  destruct (JS.startsWith (Worker.pathname (Worker.url request)) "/mcp") eqn:P.
  - destruct H as [A | [O | F]].
    + now rewrite A.
    + rewrite O in M. discriminate.
    + discriminate.
  - destruct (JS.startsWith (Worker.pathname (Worker.url request)) "/agent"); reflexivity.
Qed.

(** X3 at [GET /mcp/tools] with a wrong bearer token. *)
Lemma X3_witness_wrong_token :
  Worker.fetch "t"
    (Fixtures.request "GET" "/mcp/tools" "" [("authorization", "Bearer wrong")])
    (Vary.withMcp (Fixtures.env (Some "s3cret") None) (fun _ => Fixtures.actorReply))
  = Worker.fetch "t"
      (Fixtures.request "GET" "/mcp/tools" "" [("authorization", "Bearer wrong")])
      (Fixtures.env (Some "s3cret") None).
Proof.
  apply (X3_mount_only_behind_the_guard "t"
           (Fixtures.request "GET" "/mcp/tools" "" [("authorization", "Bearer wrong")])
           (Fixtures.env (Some "s3cret") None) (fun _ => Fixtures.actorReply)).
  left. reflexivity.
Defined.

(** X4.  The secret guards the [/mcp] paths and nothing else: for an
    OPTIONS request, and for a request whose path does not start with
    [/mcp], the response is the same whatever [MAHORAGA_API_TOKEN] is, set
    or not.  The [/api] and [/agent] routes to the harness are open. *)
Theorem X4_secret_guards_mcp_only
    (now : string) (request : Worker.Request) (env : Worker.Env) (token : option string) :
  Worker.method request = "OPTIONS"
  \/ JS.startsWith (Worker.pathname (Worker.url request)) "/mcp" = false ->
  Worker.fetch now request (Vary.withToken env token) = Worker.fetch now request env.
Proof.
  intros H. unfold Worker.fetch. cbv zeta.
  change (Worker.getCorsHeaders request (Vary.withToken env token))
    with (Worker.getCorsHeaders request env).
  destruct (Worker.method request =? "OPTIONS") eqn:M; [reflexivity|].
  destruct (Worker.pathname (Worker.url request) =? "/health"); [reflexivity|].
  destruct (JS.startsWith (Worker.pathname (Worker.url request)) "/api"); [reflexivity|].
  destruct (JS.startsWith (Worker.pathname (Worker.url request)) "/mcp") eqn:P.
  - destruct H as [O | F]; [rewrite O in M|]; discriminate.
  - destruct (JS.startsWith (Worker.pathname (Worker.url request)) "/agent"); reflexivity.
Qed.

(** X4 at [POST /agent/trade] with no [Authorization] header. *)
Lemma X4_witness_agent_without_secret :
  Worker.fetch "t" (Fixtures.request "POST" "/agent/trade" "" [])
    (Vary.withToken (Fixtures.env (Some "s3cret") None) None)
  = Worker.fetch "t" (Fixtures.request "POST" "/agent/trade" "" [])
      (Fixtures.env (Some "s3cret") None).
Proof.
  apply (X4_secret_guards_mcp_only "t" (Fixtures.request "POST" "/agent/trade" "" [])
           (Fixtures.env (Some "s3cret") None) None).
  right. reflexivity.
Defined.

Lemma alias_agentRequest (request : Worker.Request) (rest : string) :
  Worker.pathname (Worker.url request) = "/api" ++ rest ->
  Worker.agentRequest "/agent" (Vary.withPath request ("/agent" ++ rest))
  = Worker.agentRequest "/api" request.
Proof.
  intros P. rewrite (agentPath_stripped "/api" rest request P).
  now rewrite (agentPath_stripped "/agent" rest (Vary.withPath request ("/agent" ++ rest))).
Qed.

Lemma alias_fetch (now : string) (request : Worker.Request) (env : Worker.Env) (rest : string) :
  (Worker.method request =? "OPTIONS") = false ->
  Worker.pathname (Worker.url request) = "/api" ++ rest ->
  Worker.fetch now (Vary.withPath request ("/agent" ++ rest)) env
  = Worker.fetch now request env.
Proof.
  intros M P.
  rewrite (fetch_proxied now request env "/api" rest M (or_introl eq_refl) P).
  rewrite (fetch_proxied now (Vary.withPath request ("/agent" ++ rest)) env "/agent" rest
             M (or_intror eq_refl) eq_refl).
  unfold Worker.proxy. now rewrite (alias_agentRequest request rest P).
Qed.

(** X5.  [/api] and [/agent] are two names of one route: a request to
    [/api] followed by a suffix and the same request to [/agent] followed
    by that suffix hand the same request to the harness and get the same
    response. *)
Theorem X5_api_and_agent_are_aliases
    (now : string) (request : Worker.Request) (env : Worker.Env) (rest : string) :
  (Worker.method request =? "OPTIONS") = false ->
  Worker.pathname (Worker.url request) = "/api" ++ rest ->
  Worker.agentRequest "/agent" (Vary.withPath request ("/agent" ++ rest))
  = Worker.agentRequest "/api" request
  /\ Worker.fetch now (Vary.withPath request ("/agent" ++ rest)) env
     = Worker.fetch now request env.
Proof.
  intros M P. split; [now apply alias_agentRequest | now apply alias_fetch].
Qed.

(** X5 at [/api/foo?x=1] and [/agent/foo?x=1]. *)
Lemma X5_witness_api_foo :
  Worker.agentRequest "/agent"
    (Vary.withPath (Fixtures.request "GET" "/api/foo" "?x=1" []) ("/agent" ++ "/foo"))
  = Worker.agentRequest "/api" (Fixtures.request "GET" "/api/foo" "?x=1" [])
  /\ Worker.fetch "t"
       (Vary.withPath (Fixtures.request "GET" "/api/foo" "?x=1" []) ("/agent" ++ "/foo"))
       (Fixtures.env None None)
     = Worker.fetch "t" (Fixtures.request "GET" "/api/foo" "?x=1" []) (Fixtures.env None None).
Proof.
  apply (X5_api_and_agent_are_aliases "t" (Fixtures.request "GET" "/api/foo" "?x=1" [])
           (Fixtures.env None None) "/foo"); reflexivity.
Defined.

(** X6.  After the merge, a proxied response holds each resolved CORS
    header exactly once, however many headers of that name the actor sent,
    and the merge adds at most one header per CORS name to those of the
    actor. *)
Theorem X6_merged_cors_headers_are_single
    (now : string) (request : Worker.Request) (env : Worker.Env) (prefix rest : string) :
  (Worker.method request =? "OPTIONS") = false ->
  prefix = "/api" \/ prefix = "/agent" ->
  Worker.pathname (Worker.url request) = prefix ++ rest ->
  let reply := Worker.HARNESS env (Worker.agentRequest prefix request) in
  let corsHeaders := Worker.getCorsHeaders request env in
  let out := Worker.fetch now request env in
  (forall k v, In (k, v) corsHeaders -> Headers.values (Worker.r_headers out) k = [v])
  /\ List.length (Worker.r_headers out)
     <= List.length (Worker.r_headers reply) + List.length corsHeaders.
Proof.
  intros M Pre P. cbv zeta.
  rewrite (fetch_proxied now request env prefix rest M Pre P).
  unfold Worker.proxy, Headers.copy. cbn [Worker.r_headers].
  split.
  - intros k v I. apply setAll_values; [apply getCorsHeaders_keys | assumption].
  - apply setAll_length.
Qed.

(** X6 on an actor reply that sends [Access-Control-Allow-Origin] twice. *)
Lemma X6_witness_doubled_header :
  let request := Fixtures.request "GET" "/api/status" ""
                   [("origin", "http://localhost:5173")] in
  let env := Vary.doubledEnv in
  let reply := Worker.HARNESS env (Worker.agentRequest "/api" request) in
  let corsHeaders := Worker.getCorsHeaders request env in
  let out := Worker.fetch "t" request env in
  (forall k v, In (k, v) corsHeaders -> Headers.values (Worker.r_headers out) k = [v])
  /\ List.length (Worker.r_headers out)
     <= List.length (Worker.r_headers reply) + List.length corsHeaders.
Proof.
  apply (X6_merged_cors_headers_are_single "t"
           (Fixtures.request "GET" "/api/status" "" [("origin", "http://localhost:5173")])
           Vary.doubledEnv "/api" "/status").
  - reflexivity.
  - left; reflexivity.
  - reflexivity.
Defined.

(** The headers of that response: one allow-origin header, the echoed
    origin, in the place of the first one the actor sent. *)
Example doubled_header_merged :
  Worker.r_headers
    (Worker.fetch "t"
       (Fixtures.request "GET" "/api/status" "" [("origin", "http://localhost:5173")])
       Vary.doubledEnv)
  = [("Access-Control-Allow-Origin", "http://localhost:5173");
     ("x-trace", "1");
     ("access-control-allow-methods", "GET, POST, PUT, DELETE, OPTIONS");
     ("access-control-allow-headers", "Content-Type, Authorization");
     ("access-control-max-age", "86400")].
Proof. reflexivity. Qed.

(** X7.  For an origin the policy rejects, the router returns the actor's
    reply to a proxied request as it is: status, status text, body and all
    headers, the CORS headers the actor may have set among them. *)
Theorem X7_rejected_origin_passes_reply_through
    (now : string) (request : Worker.Request) (env : Worker.Env) (prefix rest : string) :
  (Worker.method request =? "OPTIONS") = false ->
  prefix = "/api" \/ prefix = "/agent" ->
  Worker.pathname (Worker.url request) = prefix ++ rest ->
  Worker.allowed request env = false ->
  Worker.fetch now request env = Worker.HARNESS env (Worker.agentRequest prefix request).
Proof.
  intros M Pre P A.
  rewrite (fetch_proxied now request env prefix rest M Pre P).
  unfold Worker.proxy. rewrite (getCorsHeaders_rejected request env A).
  apply response_eta.
Qed.

(** X7 for the origin [https://evil.example], which no allow-list names,
    on an actor reply that carries [access-control-allow-origin: *]. *)
Lemma X7_witness_actor_wildcard_kept :
  Worker.fetch "t"
    (Fixtures.request "GET" "/agent/status" "" [("origin", "https://evil.example")])
    (Fixtures.env None (Some "https://a.example"))
  = Worker.HARNESS (Fixtures.env None (Some "https://a.example"))
      (Worker.agentRequest "/agent"
         (Fixtures.request "GET" "/agent/status" "" [("origin", "https://evil.example")])).
Proof.
  apply (X7_rejected_origin_passes_reply_through "t"
           (Fixtures.request "GET" "/agent/status" "" [("origin", "https://evil.example")])
           (Fixtures.env None (Some "https://a.example")) "/agent" "/status").
  - reflexivity.
  - right; reflexivity.
  - reflexivity.
  - reflexivity.
Defined.

Example actor_wildcard_reaches_rejected_origin :
  Headers.get
    (Worker.r_headers
       (Worker.fetch "t"
          (Fixtures.request "GET" "/agent/status" "" [("origin", "https://evil.example")])
          (Fixtures.env None (Some "https://a.example"))))
    "Access-Control-Allow-Origin" = Some "*".
Proof. reflexivity. Qed.

(* ===================================================================== *)
(** ** Further properties of the CORS resolver and of the comparator *)
(* ===================================================================== *)

Section AllowList.
Import Worker.

Lemma prefix_empty (s : string) : String.prefix "" s = true.
Proof. now destruct s. Qed.

Lemma includes_char (c d : ascii) (t : string) :
  JS.includes (String d t) (String c "") = Ascii.eqb c d || JS.includes t (String c "").
Proof.
  cbn [JS.includes String.prefix].
  destruct (ascii_dec c d) as [->|NE].
  - now rewrite prefix_empty, Ascii.eqb_refl.
  - apply Ascii.eqb_neq in NE. now rewrite NE.
Qed.

Lemma split_pieces (s : string) (sep : ascii) (p : string) :
  In p (JS.split s sep) -> JS.includes p (String sep "") = false.
Proof.
  revert p. induction s as [|c s IH]; intros p I.
  - destruct I as [<-|[]]. reflexivity.
  - simpl in I. destruct (Ascii.eqb c sep) eqn:E.
    + destruct I as [<-|I]; [reflexivity | now apply IH].
    + pose proof (split_nonempty s sep) as NE.
      destruct (JS.split s sep) as [|q r]; [now elim NE|].
      destruct I as [<-|I].
      * rewrite includes_char, Ascii.eqb_sym, E. simpl. apply IH. now left.
      * apply IH. now right.
Qed.

Lemma dropWhile_keeps_absence (p : ascii -> bool) (c : ascii) (s : string) :
  JS.includes s (String c "") = false ->
  JS.includes (JS.dropWhile p s) (String c "") = false.
Proof.
  induction s as [|d s IH]; [trivial|].
  intros H. simpl. destruct (p d); [|assumption].
  rewrite includes_char in H. apply orb_false_iff in H. now apply IH.
Qed.

Lemma dropWhileEnd_keeps_absence (p : ascii -> bool) (c : ascii) (s : string) :
  JS.includes s (String c "") = false ->
  JS.includes (JS.dropWhileEnd p s) (String c "") = false.
Proof.
  induction s as [|d s IH]; [trivial|].
  intros H. rewrite includes_char in H. apply orb_false_iff in H as [H1 H2].
  simpl. destruct (p d && (JS.dropWhileEnd p s =? "")); [reflexivity|].
  rewrite includes_char, H1. now apply IH.
Qed.

Lemma dropWhileEnd_idem (p : ascii -> bool) (s : string) :
  JS.dropWhileEnd p (JS.dropWhileEnd p s) = JS.dropWhileEnd p s.
Proof.
  induction s as [|c s IH]; [reflexivity|].
  simpl. destruct (p c && (JS.dropWhileEnd p s =? "")) eqn:E; [reflexivity|].
  simpl. now rewrite IH, E.
Qed.

Lemma dropWhile_head (p : ascii -> bool) (s : string) :
  JS.dropWhile p s = "" \/ exists c t, JS.dropWhile p s = String c t /\ p c = false.
Proof.
  induction s as [|c s IH]; [now left|].
  simpl. destruct (p c) eqn:E; [assumption|]. right. now exists c, s.
Qed.

Lemma trim_idem (s : string) : JS.trim (JS.trim s) = JS.trim s.
Proof.
  unfold JS.trim.
  destruct (dropWhile_head JS.isWhiteSpace s) as [-> | (c & t & -> & E)]; [reflexivity|].
  simpl. rewrite E. simpl. rewrite E. simpl. rewrite E. simpl.
  now rewrite dropWhileEnd_idem.
Qed.

Lemma trim_keeps_absence (c : ascii) (s : string) :
  JS.includes s (String c "") = false -> JS.includes (JS.trim s) (String c "") = false.
Proof.
  intros H. unfold JS.trim.
  now apply dropWhileEnd_keeps_absence, dropWhile_keeps_absence.
Qed.

Lemma allowedOrigins_tokens (env : Env) (e : string) :
  In e (allowedOrigins env) -> JS.includes e "," = false /\ JS.trim e = e.
Proof.
  unfold allowedOrigins. destruct (CORS_ALLOWED_ORIGINS env) as [setting|]; [|intros []].
  intros I. apply in_map_iff in I as (x & <- & I).
  split; [|apply trim_idem].
  apply trim_keeps_absence. now apply split_pieces with (s := setting).
Qed.

End AllowList.

(** X8.  A request with no [Origin] header, or an empty one, is resolved as
    the empty origin.  It gets no CORS header when no allow-list is
    configured, and the four headers, with an empty allow-origin value,
    exactly when the allow-list holds an empty token or the wildcard: an
    allow-list that is the empty string, or that ends with a comma, has
    such a token. *)
Theorem X8_request_without_origin (request : Worker.Request) (env : Worker.Env) :
  Headers.get (Worker.headers request) "Origin" = None
  \/ Headers.get (Worker.headers request) "Origin" = Some "" ->
  Worker.requestOrigin request = ""
  /\ (Worker.getCorsHeaders request env = Worker.allowHeaders ""
      <-> In "" (Worker.allowedOrigins env) \/ In "*" (Worker.allowedOrigins env))
  /\ (Worker.CORS_ALLOWED_ORIGINS env = None -> Worker.getCorsHeaders request env = [])
  /\ (Worker.CORS_ALLOWED_ORIGINS env = Some "" \/
      (exists t, Worker.CORS_ALLOWED_ORIGINS env = Some (t ++ ",")) ->
      Worker.getCorsHeaders request env = Worker.allowHeaders "").
Proof.
  intros H.
  assert (O : Worker.requestOrigin request = "")
    by (unfold Worker.requestOrigin; destruct H as [-> | ->]; reflexivity).
  assert (G : Worker.allowed request env = true
              <-> In "" (Worker.allowedOrigins env) \/ In "*" (Worker.allowedOrigins env)).
  { unfold Worker.allowed. rewrite O. change (Worker.isLocalhost "") with false.
    now rewrite orb_false_l, orb_true_iff, !arrayIncludes_In. }
  split; [assumption|]. split; [|split].
  - rewrite <- G. unfold Worker.getCorsHeaders. fold (Worker.allowed request env). rewrite O.
    destruct (Worker.allowed request env); split; intros; try reflexivity; discriminate.
  - intros N. apply getCorsHeaders_rejected. unfold Worker.allowed, Worker.allowedOrigins.
    rewrite N, O. reflexivity.
  - intros S. rewrite <- O. apply getCorsHeaders_allowed, G. left.
    unfold Worker.allowedOrigins.
    destruct S as [-> | [t ->]]; [now left|].
    rewrite split_app, map_app. apply in_or_app. right. now left.
Qed.

(** X8 on a request without headers, under the allow-list
    [https://a.example,] that ends with a comma. *)
Lemma X8_witness_trailing_comma :
  Worker.requestOrigin (Fixtures.request "GET" "/api/status" "" []) = ""
  /\ (Worker.getCorsHeaders (Fixtures.request "GET" "/api/status" "" [])
        (Fixtures.env None (Some "https://a.example,")) = Worker.allowHeaders ""
      <-> In "" (Worker.allowedOrigins (Fixtures.env None (Some "https://a.example,")))
          \/ In "*" (Worker.allowedOrigins (Fixtures.env None (Some "https://a.example,"))))
  /\ (Worker.CORS_ALLOWED_ORIGINS (Fixtures.env None (Some "https://a.example,")) = None ->
      Worker.getCorsHeaders (Fixtures.request "GET" "/api/status" "" [])
        (Fixtures.env None (Some "https://a.example,")) = [])
  /\ (Worker.CORS_ALLOWED_ORIGINS (Fixtures.env None (Some "https://a.example,")) = Some "" \/
      (exists t, Worker.CORS_ALLOWED_ORIGINS (Fixtures.env None (Some "https://a.example,"))
                 = Some (t ++ ",")) ->
      Worker.getCorsHeaders (Fixtures.request "GET" "/api/status" "" [])
        (Fixtures.env None (Some "https://a.example,")) = Worker.allowHeaders "").
Proof.
  apply (X8_request_without_origin (Fixtures.request "GET" "/api/status" "" [])
           (Fixtures.env None (Some "https://a.example,"))).
  left. reflexivity.
Defined.

(** X9.  The tokens of the allow-list hold no comma and no surrounding
    white space, and the allow-list of two settings joined by a comma is
    the allow-list of the first followed by that of the second.  So an
    origin that holds a comma is never matched by a token: unless it
    starts with a loopback prefix or the wildcard is listed, it is
    rejected. *)
Theorem X9_allow_list_tokens (env : Worker.Env) :
  (forall e, In e (Worker.allowedOrigins env) -> JS.includes e "," = false /\ JS.trim e = e)
  /\ (forall x y, Worker.CORS_ALLOWED_ORIGINS env = Some (x ++ "," ++ y) ->
      Worker.allowedOrigins env
      = (map JS.trim (JS.split x ",") ++ map JS.trim (JS.split y ","))%list)
  /\ (forall request,
      JS.includes (Worker.requestOrigin request) "," = true ->
      Worker.isLocalhost (Worker.requestOrigin request) = false ->
      JS.arrayIncludes (Worker.allowedOrigins env) "*" = false ->
      Worker.getCorsHeaders request env = []).
Proof.
  split; [apply allowedOrigins_tokens|]. split.
  - intros x y S. unfold Worker.allowedOrigins. rewrite S.
    change (x ++ "," ++ y) with (x ++ String "," y). now rewrite split_app, map_app.
  - intros request C L W. apply getCorsHeaders_rejected. unfold Worker.allowed.
    rewrite L, W, !orb_false_r. simpl.
    destruct (JS.arrayIncludes (Worker.allowedOrigins env) (Worker.requestOrigin request)) eqn:A;
      [|reflexivity].
    apply arrayIncludes_In, allowedOrigins_tokens in A as [A _]. congruence.
Qed.

Section MismatchRange.
Import Worker.
Local Open Scope Z_scope.

Lemma small_bits (x : Z) :
  0 <= x < 256 <-> (0 <= x /\ forall n, 8 <= n -> Z.testbit x n = false).
Proof.
  split.
  - intros [H0 H1]. split; [assumption|]. intros n Hn.
    destruct (Z.eq_dec x 0) as [->|NZ]; [apply Z.bits_0|].
    apply Z.bits_above_log2; [assumption|].
    assert (Z.log2 x < 8) by (apply Z.log2_lt_pow2; lia). lia.
  - intros [H0 H]. split; [assumption|].
    destruct (Z.eq_dec x 0) as [->|NZ]; [lia|].
    change 256 with (2 ^ 8). apply Z.log2_lt_pow2; [lia|].
    destruct (Z_lt_le_dec (Z.log2 x) 8) as [L|L]; [assumption|].
    pose proof (Z.bit_log2 x ltac:(lia)) as B.
    rewrite (H (Z.log2 x) L) in B. discriminate.
Qed.

Lemma code_unit_small (s : string) (i : nat) :
  0 <= JS.ToInt32 (JS.charCodeAt s i) < 256.
Proof.
  unfold JS.charCodeAt. destruct (String.get i s) as [c|]; simpl; [|lia].
  pose proof (N_ascii_bounded c). lia.
Qed.

Lemma differenceAt_small (a b : string) (i : nat) : 0 <= differenceAt a b i < 256.
Proof.
  unfold differenceAt.
  destruct (proj1 (small_bits _) (code_unit_small a i)) as [A0 A].
  destruct (proj1 (small_bits _) (code_unit_small b i)) as [B0 B].
  apply small_bits. split.
  - apply Z.lxor_nonneg. tauto.
  - intros n Hn. now rewrite Z.lxor_spec, A, B.
Qed.

Lemma mismatch_fold_small (a b : string) (l : list nat) (m : Z) :
  0 <= m < 256 -> 0 <= fold_left (mismatch_step a b) l m < 256.
Proof.
  revert m. induction l as [|j l IH]; intros m Hm; simpl; [assumption|].
  apply IH. unfold mismatch_step.
  destruct (proj1 (small_bits _) Hm) as [M0 M].
  destruct (proj1 (small_bits _) (differenceAt_small a b j)) as [D0 D].
  apply small_bits. split.
  - apply Z.lor_nonneg. tauto.
  - intros n Hn. now rewrite Z.lor_spec, M, D.
Qed.

End MismatchRange.

(** X10.  The accumulator of the comparator never leaves the range of one
    code unit (here 0..255, the code units of the strings modelled): the
    32-bit [|=] and [^] cannot wrap, and it is zero at the end only for
    equal strings.  The comparison is symmetric. *)
Theorem X10_mismatch_stays_in_range (a b : string) :
  (0 <= Worker.mismatch_loop a b < 256)%Z
  /\ (forall i, 0 <= Worker.differenceAt a b i < 256)%Z
  /\ Worker.constantTimeCompare a b = Worker.constantTimeCompare b a.
Proof.
  split; [|split].
  - unfold Worker.mismatch_loop. apply mismatch_fold_small. lia.
  - apply differenceAt_small.
  - destruct (Worker.constantTimeCompare a b) eqn:E1;
      destruct (Worker.constantTimeCompare b a) eqn:E2; try reflexivity.
    + apply constantTimeCompare_true in E1. subst.
      rewrite (proj2 (constantTimeCompare_true b b) eq_refl) in E2. discriminate.
    + apply constantTimeCompare_true in E2. subst.
      rewrite (proj2 (constantTimeCompare_true a a) eq_refl) in E1. discriminate.
Qed.

(* ===================================================================== *)
(** ** The development proxy and the worker *)
(* ===================================================================== *)

Section DevProxy.
Import Worker.

Lemma rewrite_api (rest : string) : Vite.rewrite ("/api" ++ rest) = "/agent" ++ rest.
Proof.
  unfold Vite.rewrite, JS.startsWith. rewrite prefix_app.
  change 4 with (String.length "/api"). now rewrite slice_app.
Qed.

Lemma rewrite_other (path : string) :
  JS.startsWith path "/api" = false -> Vite.rewrite path = path.
Proof. unfold Vite.rewrite. now intros ->. Qed.

End DevProxy.

(** X11.  The rewrite of the development proxy turns [/api] followed by a
    suffix into [/agent] followed by that suffix and leaves every other
    path as it is, a query string included; the worker gives the
    rewritten request the response it gives the original one. *)
Theorem X11_dev_rewrite_is_invisible
    (now : string) (request : Worker.Request) (env : Worker.Env) :
  (forall rest, Vite.rewrite ("/api" ++ rest) = "/agent" ++ rest)
  /\ (forall path, JS.startsWith path "/api" = false -> Vite.rewrite path = path)
  /\ (forall path query, JS.startsWith path "/api" = true ->
      Vite.rewrite (path ++ query) = Vite.rewrite path ++ query)
  /\ Worker.fetch now
       (Vary.withPath request (Vite.rewrite (Worker.pathname (Worker.url request)))) env
     = Worker.fetch now request env.
Proof.
  split; [apply rewrite_api|]. split; [apply rewrite_other|]. split.
  - intros path query P. apply startsWith_iff in P as [rest ->].
    rewrite <- append_associative, !rewrite_api. now rewrite <- append_associative.
  - destruct (JS.startsWith (Worker.pathname (Worker.url request)) "/api") eqn:P.
    + apply startsWith_iff in P as [rest P]. rewrite P, rewrite_api.
      destruct (Worker.method request =? "OPTIONS") eqn:M.
      * rewrite !fetch_options by assumption. reflexivity.
      * now apply alias_fetch.
    + rewrite (rewrite_other _ P). now rewrite withPath_same.
Qed.

(** X12.  The listener of the development proxy sends the two Cloudflare
    Access credentials together or not at all.  Each credential is
    [env.X || process.env.X], where [env] is the object [loadEnv] returned.
    When both are set, the outgoing request carries each under its header
    name, once, and its other headers are untouched; when either is
    missing or empty, the request is left exactly as it was. *)
Theorem X12_access_credentials_go_together
    (env processEnv : Vite.Settings) (proxyReq : Headers.t) :
  let id := Vite.either (Vite.CF_ACCESS_CLIENT_ID env) (Vite.CF_ACCESS_CLIENT_ID processEnv) in
  let secret :=
    Vite.either (Vite.CF_ACCESS_CLIENT_SECRET env) (Vite.CF_ACCESS_CLIENT_SECRET processEnv) in
  let out := Vite.onProxyReq env processEnv proxyReq in
  (Vite.isSet id = false \/ Vite.isSet secret = false -> out = proxyReq)
  /\ (forall i s, id = Some i -> secret = Some s -> i <> "" -> s <> "" ->
      Headers.values out "CF-Access-Client-Id" = [i]
      /\ Headers.values out "CF-Access-Client-Secret" = [s]
      /\ forall name,
           Headers.lower name <> "cf-access-client-id" ->
           Headers.lower name <> "cf-access-client-secret" ->
           Headers.get out name = Headers.get proxyReq name).
Proof.
  cbv zeta. unfold Vite.onProxyReq. split.
  - intros [H|H]; rewrite H; [reflexivity | now rewrite andb_false_r].
  - intros i s -> -> Hi Hs.
    apply String.eqb_neq in Hi, Hs. unfold Vite.isSet. rewrite Hi, Hs. simpl.
    split; [|split].
    + unfold Headers.values. rewrite set_frame.
      * apply values_set.
      * intros e N. apply named_other with (name := "CF-Access-Client-Secret");
          [discriminate | assumption].
    + apply values_set.
    + intros name N1 N2. rewrite !get_set_other; [reflexivity | exact N1 | exact N2].
Qed.

Example access_credentials_replace_existing :
  Vite.onProxyReq
    {| Vite.MAHORAGA_API_URL := None; Vite.WRANGLER_PORT := None;
       Vite.CF_ACCESS_CLIENT_ID := Some "id"; Vite.CF_ACCESS_CLIENT_SECRET := Some "s" |}
    {| Vite.MAHORAGA_API_URL := None; Vite.WRANGLER_PORT := None;
       Vite.CF_ACCESS_CLIENT_ID := Some "id"; Vite.CF_ACCESS_CLIENT_SECRET := None |}
    [("cf-access-client-id", "stale"); ("accept", "*/*")]
  = [("cf-access-client-id", "id"); ("accept", "*/*"); ("cf-access-client-secret", "s")].
Proof. reflexivity. Qed.

(* ===================================================================== *)
(** ** Further properties of the provider *)
(* ===================================================================== *)

Section Construction.
Import Json Eff Access Provider.

Lemma default_model_is_own : ZAI.isNonZAIModel (JS.toLowerCase "GLM-4.7") = false.
Proof. reflexivity. Qed.

Lemma constructor_model_is_own (config : ZAI.ZAIConfig) :
  ZAI.isNonZAIModel (JS.toLowerCase (ZAI.this_model (ZAI.constructor config))) = false.
Proof.
  unfold ZAI.constructor. cbn [ZAI.this_model].
  destruct (ZAI.cfg_model config) as [m|]; [|reflexivity].
  destruct (ZAI.isNonZAIModel (JS.toLowerCase m)) eqn:E; [reflexivity | assumption].
Qed.

Lemma isSlash_iff (c : ascii) : isSlash c = true <-> c = "/"%char.
Proof. unfold isSlash. apply Ascii.eqb_eq. Qed.

Lemma dropWhileEnd_slashes (s : string) :
  exists k, s = JS.dropWhileEnd isSlash s ++ Vary.slashes k.
Proof.
  induction s as [|c s [k IH]].
  - now exists 0.
  - simpl. destruct (isSlash c && (JS.dropWhileEnd isSlash s =? "")) eqn:E.
    + apply andb_true_iff in E as [E1 E2].
      apply isSlash_iff in E1. apply String.eqb_eq in E2.
      exists (S k). rewrite E2 in IH. simpl in *. now rewrite E1, <- IH.
    + exists k. simpl. now rewrite <- IH.
Qed.

Lemma dropWhileEnd_last (p : ascii -> bool) (s u : string) (c : ascii) :
  JS.dropWhileEnd p s = u ++ String c "" -> p c = false.
Proof.
  revert u. induction s as [|d s IH]; intros u H.
  - destruct u; discriminate.
  - simpl in H. destruct (p d && (JS.dropWhileEnd p s =? "")) eqn:E.
    + destruct u; discriminate.
    + destruct u as [|x u]; simpl in H; injection H as -> H.
      * rewrite H in E. simpl in E. now rewrite andb_true_r in E.
      * now apply IH with (u := u).
Qed.

End Construction.

(** X13.  A provider made by the constructor of the revision with
    [normalizeModel] never sends a model name whose lower-case form
    includes [gpt], [claude] or [gemini], whatever model it was configured
    with and whatever model the caller asks for. *)
Theorem X13_no_rival_model_is_sent
    (config : ZAI.ZAIConfig) (params : Provider.CompletionParams) :
  ZAI.isNonZAIModel (JS.toLowerCase (ZAI.this_model (ZAI.createZAIProvider config))) = false
  /\ ZAI.isNonZAIModel
       (JS.toLowerCase
          (Provider.model (Provider.f_body (ZAI.chatCall (ZAI.createZAIProvider config) params))))
     = false.
Proof.
  unfold ZAI.createZAIProvider.
  pose proof (constructor_model_is_own config) as Own.
  split; [assumption|].
  unfold ZAI.chatCall, ZAI.chatBody. cbn [Provider.f_body Provider.model].
  unfold ZAI.normalizeModel.
  destruct (Provider.p_model params) as [m|]; [|assumption].
  destruct (m =? ""); [assumption|].
  destruct (ZAI.isNonZAIModel (JS.toLowerCase m)) eqn:E; assumption.
Qed.

(** X14.  The endpoint a provider keeps is the configured base URL (or the
    default) trimmed and without its trailing slashes: it never ends with
    a slash, and nothing but slashes is cut from the trimmed base.  Both
    revisions call that endpoint followed by [/chat/completions]. *)
Theorem X14_endpoint_has_no_trailing_slash (baseUrl : option string) :
  let trimmed := JS.trim match baseUrl with
                         | Some u => u
                         | None => "https://api.z.ai/api/coding/paas/v4"
                         end in
  let endpoint := Provider.endpoint baseUrl in
  (forall u, endpoint <> u ++ "/")
  /\ (exists k, trimmed = endpoint ++ Vary.slashes k)
  /\ (forall key model params,
      Provider.f_url
        (ZAI.chatCall
           (ZAI.createZAIProvider
              {| ZAI.apiKey := key; ZAI.cfg_model := model; ZAI.baseUrl := baseUrl |}) params)
      = endpoint ++ "/chat/completions"
      /\ Provider.f_url
           (ZAI2.chatCall
              (ZAI2.createZAIProvider
                 {| ZAI2.apiKey := key; ZAI2.cfg_model := model; ZAI2.baseUrl := baseUrl |})
              params)
         = endpoint ++ "/chat/completions")
  /\ Provider.endpoint None = "https://api.z.ai/api/coding/paas/v4".
Proof.
  cbv zeta. unfold Provider.endpoint. split; [|split; [|split]].
  - intros u H. apply dropWhileEnd_last in H. discriminate.
  - apply dropWhileEnd_slashes.
  - intros key model params. split; reflexivity.
  - reflexivity.
Qed.

Example endpoint_of_padded_url :
  Provider.endpoint (Some "  https://custom-zai.example.com/v1///  ")
  = "https://custom-zai.example.com/v1".
Proof. reflexivity. Qed.

Section Exceptions.
Import Json Eff Access Provider.

Lemma andThen_thrown {A B} (o : outcome A) (k : A -> outcome B) (e : exn) :
  andThen o k = Thrown e -> o = Thrown e \/ exists a, o = Returned a /\ k a = Thrown e.
Proof.
  destruct o as [a|x]; simpl; intros H; [right; now exists a|].
  left. now injection H as ->.
Qed.

Lemma andThen_returned {A B} (o : outcome A) (k : A -> outcome B) (r : B) :
  andThen o k = Returned r -> exists a, o = Returned a /\ k a = Returned r.
Proof. destruct o as [a|x]; simpl; intros H; [now exists a | discriminate]. Qed.

Lemma bind_thrown {A B} (m : M A) (k : A -> M B) (con con' : console) (e : exn) :
  bind m k con = (Thrown e, con') ->
  m con = (Thrown e, con') \/ exists a c, m con = (Returned a, c) /\ k a c = (Thrown e, con').
Proof.
  unfold bind. destruct (m con) as [[a|x] c]; intros H; [right; now exists a, c|].
  left. now injection H as -> ->.
Qed.

Lemma bind_returned {A B} (m : M A) (k : A -> M B) (con con' : console) (r : B) :
  bind m k con = (Returned r, con') ->
  exists a c, m con = (Returned a, c) /\ k a c = (Returned r, con').
Proof.
  unfold bind. destruct (m con) as [[a|x] c]; intros H; [now exists a, c | discriminate].
Qed.

Lemma lift_inv {A} (o o' : outcome A) (con con' : console) :
  lift o con = (o', con') -> o = o' /\ con' = con.
Proof. unfold lift. intros H. now injection H as -> ->. Qed.

Lemma getProp_thrown (v : jsval) (key : string) (e : exn) :
  getProp v key = Thrown e -> e = TypeError.
Proof. destruct v as [[]|]; simpl; intros H; now inversion H. Qed.

Lemma getIndex_thrown (v : jsval) (i : nat) (e : exn) :
  getIndex v i = Thrown e -> e = TypeError.
Proof. destruct v as [[]|]; simpl; intros H; now inversion H. Qed.

Lemma optProp_thrown (v : jsval) (key : string) (e : exn) :
  optProp v key = Thrown e -> e = TypeError.
Proof.
  unfold optProp. destruct (nullish v); [discriminate | apply getProp_thrown].
Qed.

Lemma optSubstring_thrown (v : jsval) (e : exn) :
  optSubstring v = Thrown e -> e = TypeError.
Proof. destruct v as [[]|]; simpl; intros H; now inversion H. Qed.

Lemma optSubstring_returned (v r : jsval) :
  optSubstring v = Returned r -> nullish v = true \/ exists s, v = Some (Str s).
Proof.
  destruct v as [[]|]; simpl; intros H; try discriminate; try (now left).
  right. eexists; reflexivity.
Qed.

Lemma callTrim_thrown (v : value) (e : exn) : callTrim v = Thrown e -> e = TypeError.
Proof. destruct v; simpl; intros H; now inversion H. Qed.

Ltac thrown_steps H :=
  repeat first
    [ apply getProp_thrown in H
    | apply getIndex_thrown in H
    | apply optProp_thrown in H
    | apply optSubstring_thrown in H
    | apply callTrim_thrown in H
    | discriminate H
    | apply andThen_thrown in H as [H | (? & _ & H)] ].

Lemma firstChoice_thrown (data : jsval) (e : exn) :
  firstChoice data = Thrown e -> e = TypeError.
Proof. unfold firstChoice. intros H. thrown_steps H; assumption. Qed.

Lemma firstContent_thrown (data : jsval) (e : exn) :
  firstContent data = Thrown e -> e = TypeError.
Proof.
  unfold firstContent. intros H.
  apply andThen_thrown in H as [H | (? & _ & H)]; [now apply firstChoice_thrown in H|].
  thrown_steps H; assumption.
Qed.

Lemma readUsage_thrown (data : jsval) (e : exn) :
  ZAI2.readUsage data = Thrown e -> e = TypeError.
Proof. unfold ZAI2.readUsage. intros H. thrown_steps H; assumption. Qed.

Lemma responseLogArguments_thrown (data : jsval) (e : exn) :
  ZAI.responseLogArguments data = Thrown e -> e = TypeError.
Proof.
  unfold ZAI.responseLogArguments. intros H.
  repeat first
    [ apply firstContent_thrown in H
    | apply firstChoice_thrown in H
    | apply getProp_thrown in H
    | apply optProp_thrown in H
    | apply optSubstring_thrown in H
    | discriminate H
    | apply andThen_thrown in H as [H | (? & _ & H)] ]; assumption.
Qed.

Lemma responseLogArguments_content (data c : jsval) :
  ZAI.responseLogArguments data = Returned tt ->
  firstContent data = Returned c ->
  nullish c = true \/ exists s, c = Some (Str s).
Proof.
  unfold ZAI.responseLogArguments. intros H F. rewrite !F in H.
  cbn [andThen] in H.
  do 4 (apply andThen_returned in H as (? & _ & H); cbn [andThen] in H).
  apply andThen_returned in H as (r & S & _).
  now apply optSubstring_returned in S.
Qed.

End Exceptions.

Section Outcomes.
Import Json Eff Access Provider.

Lemma Response_json_thrown (response : FetchResponse) (e : exn) :
  Response_json response = Thrown e -> e = SyntaxError.
Proof.
  unfold Response_json. destruct (json response); intros H; now inversion H.
Qed.

Lemma isEmptyContent_thrown (content : value) (e : exn) :
  ZAI.isEmptyContent content = Thrown e -> e = TypeError.
Proof.
  unfold ZAI.isEmptyContent. destruct (negb (truthy (Some content))); [discriminate|].
  intros H. apply andThen_thrown in H as [H | (? & _ & H)];
    [now apply callTrim_thrown in H | discriminate].
Qed.

Lemma truncatedByLength_thrown (data r : jsval) (e : exn) :
  ZAI.truncatedByLength data r = Thrown e -> e = TypeError.
Proof.
  unfold ZAI.truncatedByLength. destruct (truthy r); [|discriminate].
  intros H. apply andThen_thrown in H as [H | (? & _ & H)];
    [now apply firstChoice_thrown in H|].
  apply andThen_thrown in H as [H | (? & _ & H)];
    [now apply optProp_thrown in H | discriminate].
Qed.

Lemma emptyContentDiagnostics_thrown (data r : jsval) (con con' : console) (e : exn) :
  ZAI.emptyContentDiagnostics data r con = (Thrown e, con') -> e = TypeError.
Proof.
  unfold ZAI.emptyContentDiagnostics. intros H.
  apply bind_thrown in H as [H | (t & c & _ & H)].
  - apply lift_inv in H as [H _]. now apply truncatedByLength_thrown in H.
  - destruct t; unfold bind, print, ret in H; discriminate.
Qed.

(** On a 2xx response the revision with diagnostics throws nothing but the
    decoder's SyntaxError and TypeErrors. *)
Lemma handle_thrown (response : FetchResponse) (con con' : console) (e : exn) :
  ok response = true ->
  ZAI.handle response con = (Thrown e, con') ->
  e = TypeError \/ e = SyntaxError.
Proof.
  intros K H. unfold ZAI.handle in H. rewrite K in H. cbn [negb] in H.
  apply bind_thrown in H as [H | (d & c0 & _ & H)].
  { apply lift_inv in H as [H _]. right. now apply Response_json_thrown in H. }
  left.
  apply bind_thrown in H as [H | (? & ? & _ & H)].
  { apply lift_inv in H as [H _]. now apply responseLogArguments_thrown in H. }
  apply bind_thrown in H as [H | (? & ? & _ & H)]; [discriminate|].
  apply bind_thrown in H as [H | (c & ? & _ & H)].
  { apply lift_inv in H as [H _]. now apply firstContent_thrown in H. }
  apply bind_thrown in H as [H | (r & ? & _ & H)].
  { apply lift_inv in H as [H _].
    apply andThen_thrown in H as [H | (? & _ & H)]; [now apply firstChoice_thrown in H|].
    apply andThen_thrown in H as [H | (? & _ & H)]; now apply optProp_thrown in H. }
  apply bind_thrown in H as [H | (b & ? & _ & H)].
  { apply lift_inv in H as [H _]. now apply isEmptyContent_thrown in H. }
  apply bind_thrown in H as [H | (? & ? & _ & H)].
  { destruct b; [now apply emptyContentDiagnostics_thrown in H | discriminate]. }
  apply bind_thrown in H as [H | (? & ? & _ & H)]; [|discriminate].
  apply lift_inv in H as [H _]. now apply readUsage_thrown in H.
Qed.

Lemma handle2_thrown (response : FetchResponse) (con con' : console) (e : exn) :
  ok response = true ->
  ZAI2.handle response con = (Thrown e, con') ->
  e = TypeError \/ e = SyntaxError.
Proof.
  intros K H. unfold ZAI2.handle in H. rewrite K in H. cbn [negb] in H.
  apply bind_thrown in H as [H | (d & c0 & _ & H)].
  { apply lift_inv in H as [H _]. right. now apply Response_json_thrown in H. }
  left.
  apply bind_thrown in H as [H | (c & ? & _ & H)].
  { apply lift_inv in H as [H _]. now apply firstContent_thrown in H. }
  apply bind_thrown in H as [H | (? & ? & _ & H)]; [|discriminate].
  apply lift_inv in H as [H _]. now apply readUsage_thrown in H.
Qed.

(** What a result of the revision with diagnostics tells: the response is
    a 2xx one, its body decodes, the first content reads as [undefined],
    [null] or a string, and the usage is read. *)
Lemma handle_returned (response : FetchResponse) (con con' : console)
    (r : CompletionResult) :
  ZAI.handle response con = (Returned r, con') ->
  exists d c u,
    ok response = true /\ json response = Some d
    /\ firstContent (Some d) = Returned c
    /\ (nullish c = true \/ exists s, c = Some (Str s))
    /\ ZAI.readUsage (Some d) = Returned u
    /\ r = {| content := coalesce c (Str ""); usage := u |}.
Proof.
  unfold ZAI.handle. destruct (ok response) eqn:K; cbn [negb]; intros H.
  2:{ unfold bind, print, throw in H. discriminate. }
  apply bind_returned in H as (d & c0 & J & H).
  apply lift_inv in J as [J _]. unfold Response_json in J.
  destruct (json response) as [d'|]; [|discriminate]. injection J as ->.
  apply bind_returned in H as ([] & ? & L & H). apply lift_inv in L as [L _].
  apply bind_returned in H as (? & ? & _ & H).
  apply bind_returned in H as (c & ? & F & H). apply lift_inv in F as [F _].
  apply bind_returned in H as (? & ? & _ & H).
  apply bind_returned in H as (? & ? & _ & H).
  apply bind_returned in H as (? & ? & _ & H).
  apply bind_returned in H as (u & ? & U & H). apply lift_inv in U as [U _].
  unfold ret in H. injection H as <- _.
  exists d, c, u. repeat split; try assumption.
  now apply responseLogArguments_content with (data := Some d).
Qed.

End Outcomes.

(** X15.  Once [fetch] has resolved, [complete] throws a [PROVIDER_ERROR]
    exactly when the status is outside 200..299: on a 2xx response, whatever
    its body, what it may throw is the decoder's SyntaxError or a
    TypeError, never a provider error.  When [fetch] rejects, [complete]
    rejects with the same reason.  This holds in both revisions. *)
Theorem X15_provider_error_iff_non_2xx
    (this : ZAI.ZAIProvider) (this2 : ZAI2.ZAIProvider) (params : Provider.CompletionParams)
    (response : Provider.FetchResponse) :
  ((exists err, Eff.result (ZAI.complete this (Provider.respond response) params)
                = Eff.Thrown (Eff.App err))
   <-> Provider.ok response = false)
  /\ ((exists err, Eff.result (ZAI2.complete this2 (Provider.respond response) params)
                   = Eff.Thrown (Eff.App err))
      <-> Provider.ok response = false)
  /\ (forall e,
      Provider.ok response = true ->
      Eff.result (ZAI.complete this (Provider.respond response) params) = Eff.Thrown e
      \/ Eff.result (ZAI2.complete this2 (Provider.respond response) params) = Eff.Thrown e ->
      e = Eff.TypeError \/ e = Eff.SyntaxError)
  /\ (forall e,
      Eff.result (ZAI.complete this (fun _ => Eff.Thrown e) params) = Eff.Thrown e
      /\ Eff.result (ZAI2.complete this2 (fun _ => Eff.Thrown e) params) = Eff.Thrown e).
Proof.
  assert (T1 : forall e, Provider.ok response = true ->
            Eff.result (ZAI.complete this (Provider.respond response) params) = Eff.Thrown e ->
            e = Eff.TypeError \/ e = Eff.SyntaxError).
  { intros e K H. rewrite complete_result in H.
    destruct (ZAI.handle response [(Eff.Log, "[Z.AI] Request:")]) as [o c] eqn:E.
    simpl in H. subst o. now apply handle_thrown in E. }
  assert (T2 : forall e, Provider.ok response = true ->
            Eff.result (ZAI2.complete this2 (Provider.respond response) params) = Eff.Thrown e ->
            e = Eff.TypeError \/ e = Eff.SyntaxError).
  { intros e K H. rewrite complete2_result in H.
    destruct (ZAI2.handle response []) as [o c] eqn:E.
    simpl in H. subst o. now apply handle2_thrown in E. }
  split; [|split; [|split; [|split]]].
  - split.
    + intros [err H]. destruct (Provider.ok response) eqn:K; [|reflexivity].
      destruct (T1 _ eq_refl H); discriminate.
    + intros K. rewrite complete_result. unfold ZAI.handle. rewrite K.
      eexists. reflexivity.
  - split.
    + intros [err H]. destruct (Provider.ok response) eqn:K; [|reflexivity].
      destruct (T2 _ eq_refl H); discriminate.
    + intros K. rewrite complete2_result. unfold ZAI2.handle. rewrite K.
      eexists. reflexivity.
  - intros e K [H|H]; [now apply T1 | now apply T2].
  - reflexivity.
  - reflexivity.
Qed.

(** X16.  Whenever the revision with diagnostics returns a result, its
    content is a string and the revision without diagnostics returns the
    same result for the same response.  (The converse fails: a content
    that is a number is returned by the plain revision and makes the other
    one throw.) *)
Theorem X16_diagnostics_revision_returns_strings
    (this : ZAI.ZAIProvider) (this2 : ZAI2.ZAIProvider) (params : Provider.CompletionParams)
    (response : Provider.FetchResponse) (r : Provider.CompletionResult) :
  Eff.result (ZAI.complete this (Provider.respond response) params) = Eff.Returned r ->
  Provider.ok response = true
  /\ (exists s, Provider.content r = Json.Str s)
  /\ Eff.result (ZAI2.complete this2 (Provider.respond response) params) = Eff.Returned r.
Proof.
  intros H. rewrite complete_result in H.
  destruct (ZAI.handle response [(Eff.Log, "[Z.AI] Request:")]) as [o c'] eqn:E.
  simpl in H. subst o.
  apply handle_returned in E as (d & c & u & K & J & F & C & U & ->).
  split; [assumption|]. split.
  - cbn [Provider.content].
    destruct C as [C | [s ->]]; [|now exists s].
    destruct c as [[]|]; try discriminate; now exists "".
  - rewrite complete2_result, (handle2_outcome response d c _ K J F).
    change (ZAI2.readUsage (Some d)) with (ZAI.readUsage (Some d)). now rewrite U.
Qed.

(** X16 on the envelope of the repository's test of an empty content. *)
Lemma X16_witness_empty_content_envelope :
  Provider.ok (Fixtures.reply 200 "" (Some Fixtures.noContent)) = true
  /\ (exists s,
      Provider.content
        {| Provider.content := Json.Str "";
           Provider.usage :=
             {| Provider.prompt_tokens := Some (Json.Number (10 # 1));
                Provider.completion_tokens := Some (Json.Number (0 # 1));
                Provider.total_tokens := Some (Json.Number (10 # 1)) |} |} = Json.Str s)
  /\ Eff.result (ZAI2.complete Fixtures.zai2
                   (Provider.respond (Fixtures.reply 200 "" (Some Fixtures.noContent)))
                   (Fixtures.ask None))
     = Eff.Returned
         {| Provider.content := Json.Str "";
            Provider.usage :=
              {| Provider.prompt_tokens := Some (Json.Number (10 # 1));
                 Provider.completion_tokens := Some (Json.Number (0 # 1));
                 Provider.total_tokens := Some (Json.Number (10 # 1)) |} |}.
Proof.
  apply (X16_diagnostics_revision_returns_strings Fixtures.zai Fixtures.zai2 (Fixtures.ask None)
           (Fixtures.reply 200 "" (Some Fixtures.noContent))).
  reflexivity.
Defined.

(** A content that is the number 5: the plain revision returns it, the
    revision with diagnostics throws at the preview of the content. *)
Example number_content_differs :
  let envelope :=
    Json.Object [("choices", Json.Array
                    [Json.Object [("message", Json.Object [("content", Json.Number (5 # 1))])]]);
                 ("usage", Fixtures.counters)] in
  (exists r, Eff.result (ZAI2.complete Fixtures.zai2
                           (Provider.respond (Fixtures.reply 200 "" (Some envelope)))
                           (Fixtures.ask None)) = Eff.Returned r
             /\ Provider.content r = Json.Number (5 # 1))
  /\ Eff.result (ZAI.complete Fixtures.zai
                   (Provider.respond (Fixtures.reply 200 "" (Some envelope)))
                   (Fixtures.ask None)) = Eff.Thrown Eff.TypeError.
Proof. cbv zeta. split; [eexists; split; reflexivity | reflexivity]. Qed.

Section Diagnostics.
Import Json Eff Access Provider.

Lemma isEmptyContent_value (c : jsval) :
  nullish c = true \/ (exists s, c = Some (Str s)) ->
  ZAI.isEmptyContent (coalesce c (Str ""))
  = Returned match c with
             | Some (Str s) => JS.trim s =? ""
             | _ => true
             end.
Proof.
  intros [C | [s ->]].
  - destruct c as [[]|]; try discriminate; reflexivity.
  - unfold ZAI.isEmptyContent. simpl. destruct s; reflexivity.
Qed.

Lemma truncatedByLength_value (data choice r f : jsval) :
  firstChoice data = Returned choice ->
  optProp choice "finish_reason" = Returned f ->
  ZAI.truncatedByLength data r
  = Returned (truthy r && match f with
                          | Some (Str "length") => true
                          | _ => false
                          end).
Proof.
  intros FC F. unfold ZAI.truncatedByLength.
  destruct (truthy r); [|reflexivity].
  rewrite FC. cbn [andThen]. rewrite F. reflexivity.
Qed.

Lemma usage_step_console {A} (o : outcome Usage) (k : Usage -> A) (con : console) :
  snd (bind (lift o) (fun u => ret (k u)) con) = con.
Proof. destruct o; reflexivity. Qed.

Lemma complete2_console (this2 : ZAI2.ZAIProvider) (params : CompletionParams)
    (fetch : FetchCall -> outcome FetchResponse) (con : console) :
  snd (ZAI2.complete this2 fetch params con) = con.
Proof.
  unfold ZAI2.complete, ZAI2.handle, Response_json, bind, lift, throw, ret.
  destruct (fetch (ZAI2.chatCall this2 params)) as [resp|e]; [|reflexivity].
  destruct (negb (ok resp)); [reflexivity|].
  destruct (json resp); [|reflexivity].
  destruct (firstContent _); [|reflexivity].
  destruct (ZAI2.readUsage _); reflexivity.
Qed.

End Diagnostics.

(** X17.  The console of the revision with diagnostics, on a 2xx response
    whose first content reads as [undefined], [null] or a string.  After
    the request and response lines nothing more is written when the
    content has a character that is not white space.  When the content is
    missing or blank, the empty-response error is written, and before it
    the token-limit warning exactly when the reasoning content is truthy
    and the finish reason is "length".  This does not depend on the usage,
    which is read afterwards.  The revision without diagnostics never
    writes to the console. *)
Theorem X17_empty_content_is_reported
    (this : ZAI.ZAIProvider) (this2 : ZAI2.ZAIProvider) (params : Provider.CompletionParams)
    (response : Provider.FetchResponse) (d : Json.value)
    (choice message c r f : Json.jsval) :
  Provider.ok response = true ->
  Provider.json response = Some d ->
  Access.firstChoice (Some d) = Eff.Returned choice ->
  Access.optProp choice "message" = Eff.Returned message ->
  Access.optProp message "content" = Eff.Returned c ->
  Json.nullish c = true \/ (exists s, c = Some (Json.Str s)) ->
  Access.optProp message "reasoning_content" = Eff.Returned r ->
  Access.optProp choice "finish_reason" = Eff.Returned f ->
  let blank := match c with
               | Some (Json.Str s) => JS.trim s =? ""
               | _ => true
               end in
  let truncated := Json.truthy r && match f with
                                    | Some (Json.Str "length") => true
                                    | _ => false
                                    end in
  snd (ZAI.complete this (Provider.respond response) params [])
  = ([(Eff.Log, "[Z.AI] Request:"); (Eff.Log, "[Z.AI] Response:")]
     ++ (if blank
         then (if truncated
               then [(Eff.Warn, "[Z.AI] Content empty due to token limit, reasoning model used all tokens on chain-of-thought. Consider increasing max_tokens.")]
               else [])
              ++ [(Eff.Error, "[Z.AI] Empty Response Detected:")]
         else []))%list
  /\ (forall fetch con, snd (ZAI2.complete this2 fetch params con) = con).
Proof.
  intros K J FC M C N R F. cbv zeta.
  assert (FCo : Access.firstContent (Some d) = Eff.Returned c)
    by (unfold Access.firstContent; rewrite FC; cbn [Eff.andThen]; rewrite M; exact C).
  split.
  - unfold ZAI.complete, Provider.respond.
    rewrite bind_print, bind_lift_returned.
    unfold ZAI.handle, Provider.Response_json. rewrite K, J. cbn [negb].
    rewrite bind_lift_returned. cbv beta zeta.
    rewrite (responseLogArguments_returns _ _ FCo N).
    rewrite bind_lift_returned, bind_print, FCo, bind_lift_returned. cbv beta zeta.
    rewrite FC. cbn [Eff.andThen]. rewrite M. cbn [Eff.andThen]. rewrite R.
    rewrite bind_lift_returned.
    rewrite (isEmptyContent_value c N), bind_lift_returned.
    destruct (match c with Some (Json.Str s) => JS.trim s =? "" | _ => true end).
    + unfold Eff.bind at 1. unfold ZAI.emptyContentDiagnostics.
      rewrite (truncatedByLength_value (Some d) choice r f FC F).
      rewrite bind_lift_returned.
      destruct (Json.truthy r && _); cbn [Eff.bind Eff.print Eff.ret];
        rewrite usage_step_console; reflexivity.
    + unfold Eff.bind at 1. cbn [Eff.ret].
      rewrite usage_step_console. reflexivity.
  - apply complete2_console.
Qed.

(** X17 on an envelope with no content, a reasoning content and the finish
    reason "length": the warning and the error are both written. *)
Lemma X17_witness_cut_short :
  snd (ZAI.complete Fixtures.zai
         (Provider.respond (Fixtures.reply 200 "" (Some Vary.cutShort))) (Fixtures.ask None) [])
  = [(Eff.Log, "[Z.AI] Request:"); (Eff.Log, "[Z.AI] Response:");
     (Eff.Warn, "[Z.AI] Content empty due to token limit, reasoning model used all tokens on chain-of-thought. Consider increasing max_tokens.");
     (Eff.Error, "[Z.AI] Empty Response Detected:")]
  /\ (forall fetch con,
      snd (ZAI2.complete Fixtures.zai2 fetch (Fixtures.ask None) con) = con).
Proof.
  apply (X17_empty_content_is_reported Fixtures.zai Fixtures.zai2 (Fixtures.ask None)
           (Fixtures.reply 200 "" (Some Vary.cutShort)) Vary.cutShort
           (Some (Json.Object
                    [("message", Json.Object [("reasoning_content", Json.Str "thinking")]);
                     ("finish_reason", Json.Str "length")]))
           (Some (Json.Object [("reasoning_content", Json.Str "thinking")]))
           None
           (Some (Json.Str "thinking"))
           (Some (Json.Str "length"))); try reflexivity.
  left. reflexivity.
Defined.

(** A content with visible text: only the request and response lines. *)
Example visible_content_is_not_reported :
  snd (ZAI.complete Fixtures.zai
         (Provider.respond (Fixtures.reply 200 "" (Some Fixtures.emptyUsage)))
         (Fixtures.ask None) [])
  = [(Eff.Log, "[Z.AI] Request:"); (Eff.Log, "[Z.AI] Response:")].
Proof. reflexivity. Qed.

(** X18.  The two revisions issue the same call when their keys, endpoints
    and own models agree and the caller either names no model or names a
    non-empty one whose lower-case form includes none of [gpt], [claude],
    [gemini]; the call is a POST to the endpoint's [/chat/completions]
    with the bearer key.  They differ, in the model alone, when the caller
    names such a model or the empty string while the own model is
    another one. *)
Theorem X18_revisions_issue_the_same_call
    (this : ZAI.ZAIProvider) (this2 : ZAI2.ZAIProvider) (params : Provider.CompletionParams) :
  ZAI.this_apiKey this = ZAI2.this_apiKey this2 ->
  ZAI.this_baseUrl this = ZAI2.this_baseUrl this2 ->
  ZAI.this_model this = ZAI2.this_model this2 ->
  (Provider.model (Provider.f_body (ZAI.chatCall this params))
   = Provider.model (Provider.f_body (ZAI2.chatCall this2 params))
   <-> ZAI.chatCall this params = ZAI2.chatCall this2 params)
  /\ (Provider.p_model params = None
      \/ (exists m, Provider.p_model params = Some m /\ m <> ""
                    /\ ZAI.isNonZAIModel (JS.toLowerCase m) = false) ->
      ZAI.chatCall this params = ZAI2.chatCall this2 params)
  /\ (forall m, Provider.p_model params = Some m ->
      m = "" \/ ZAI.isNonZAIModel (JS.toLowerCase m) = true ->
      ZAI.this_model this <> m ->
      ZAI.chatCall this params <> ZAI2.chatCall this2 params)
  /\ Provider.f_method (ZAI.chatCall this params) = "POST"
  /\ Provider.f_url (ZAI.chatCall this params) = ZAI.this_baseUrl this ++ "/chat/completions"
  /\ Provider.f_headers (ZAI.chatCall this params)
     = [("Content-Type", "application/json");
        ("Authorization", "Bearer " ++ ZAI.this_apiKey this)].
Proof.
  intros Ka Ba Ma.
  assert (Same : Provider.model (Provider.f_body (ZAI.chatCall this params))
                 = Provider.model (Provider.f_body (ZAI2.chatCall this2 params))
                 -> ZAI.chatCall this params = ZAI2.chatCall this2 params).
  { unfold ZAI.chatCall, ZAI2.chatCall, ZAI.chatBody, ZAI2.chatBody.
    cbn [Provider.f_body Provider.model]. intros E. now rewrite E, Ka, Ba. }
  split; [split; [exact Same | intros E; rewrite E; reflexivity]|].
  split; [|split; [|split; [reflexivity|split; reflexivity]]].
  - intros H. apply Same.
    unfold ZAI.chatCall, ZAI2.chatCall, ZAI.chatBody, ZAI2.chatBody.
    cbn [Provider.f_body Provider.model]. unfold ZAI.normalizeModel.
    destruct H as [-> | (m & -> & NE & F)]; [assumption|].
    apply String.eqb_neq in NE. now rewrite NE, F.
  - intros m P H NE E. apply (f_equal (fun c => Provider.model (Provider.f_body c))) in E.
    unfold ZAI.chatCall, ZAI2.chatCall, ZAI.chatBody, ZAI2.chatBody in E.
    cbn [Provider.f_body Provider.model] in E. rewrite P in E.
    unfold ZAI.normalizeModel in E.
    destruct H as [-> | H]; [now apply NE|].
    destruct (m =? ""); [now apply NE|]. rewrite H in E. now apply NE.
Qed.

(** X18 for the two providers configured with a key only and a caller
    that names no model. *)
Lemma X18_witness_default_providers :
  (Provider.model (Provider.f_body (ZAI.chatCall Fixtures.zai (Fixtures.ask None)))
   = Provider.model (Provider.f_body (ZAI2.chatCall Fixtures.zai2 (Fixtures.ask None)))
   <-> ZAI.chatCall Fixtures.zai (Fixtures.ask None)
       = ZAI2.chatCall Fixtures.zai2 (Fixtures.ask None))
  /\ (Provider.p_model (Fixtures.ask None) = None
      \/ (exists m, Provider.p_model (Fixtures.ask None) = Some m /\ m <> ""
                    /\ ZAI.isNonZAIModel (JS.toLowerCase m) = false) ->
      ZAI.chatCall Fixtures.zai (Fixtures.ask None)
      = ZAI2.chatCall Fixtures.zai2 (Fixtures.ask None))
  /\ (forall m, Provider.p_model (Fixtures.ask None) = Some m ->
      m = "" \/ ZAI.isNonZAIModel (JS.toLowerCase m) = true ->
      ZAI.this_model Fixtures.zai <> m ->
      ZAI.chatCall Fixtures.zai (Fixtures.ask None)
      <> ZAI2.chatCall Fixtures.zai2 (Fixtures.ask None))
  /\ Provider.f_method (ZAI.chatCall Fixtures.zai (Fixtures.ask None)) = "POST"
  /\ Provider.f_url (ZAI.chatCall Fixtures.zai (Fixtures.ask None))
     = ZAI.this_baseUrl Fixtures.zai ++ "/chat/completions"
  /\ Provider.f_headers (ZAI.chatCall Fixtures.zai (Fixtures.ask None))
     = [("Content-Type", "application/json");
        ("Authorization", "Bearer " ++ ZAI.this_apiKey Fixtures.zai)].
Proof.
  apply (X18_revisions_issue_the_same_call Fixtures.zai Fixtures.zai2 (Fixtures.ask None));
    vm_compute; reflexivity.
Defined.
